(** * texas-dps-scheduler: the polling-and-booking client

    A shallow embedding of [src/Client/index.ts] (class [TexasScheduler]):
    the availability filter and candidate selection of [getLocationDates],
    the retrying transport [requestApi], the hold and book steps
    [holdSlot] and [bookSlot], and the guard [checkExistBooking].

    Pure parts of the source are functions over lists; the methods that
    touch the network, the log, the queue or the process are computations
    in a small state monad with two abnormal outcomes, [process.exit] and
    a rejected promise. *)

From Stdlib Require Import ZArith QArith Lqa List Sorted Permutation Bool String DecimalString Lia.
From Equations Require Import Equations.
Import ListNotations.

Local Open Scope string_scope.
Local Open Scope list_scope.
Local Open Scope Z_scope.

(** ** Instants and the dayjs operations the client calls

    [dayjs(x)] parses its argument into an instant of the local wall
    clock.  An instant is modelled by the number of milliseconds elapsed
    on that clock since 1970-01-01T00:00 (a Thursday); the parsing of the
    API's ISO strings is not modelled, a field that the source passes to
    [dayjs] holds the parsed instant. *)
Module Dayjs.

Definition Instant := Z.

Definition msPerHour : Z := 3600000.
Definition msPerDay : Z := 86400000.

(** The number of the calendar day an instant falls on. *)
Definition dayNumber (t : Instant) : Z := t / msPerDay.

(** [.startOf('day')] and [.endOf('day')]. *)
Definition startOfDay (t : Instant) : Instant := t - t mod msPerDay.
Definition endOfDay (t : Instant) : Instant := startOfDay t + msPerDay - 1.

(** The time values of a JavaScript [Date] range over 8.64e15
    milliseconds either side of the epoch; a date whose time value
    would fall outside is an Invalid Date. *)
Definition maxTime : Z := 8640000000000000.

Definition inRange (timeValue : Z) : bool :=
  (- maxTime <=? timeValue) && (timeValue <=? maxTime).

(** A date that dayjs built in the local zone: the reading of the local
    wall clock, and the offset of the zone from UTC at each reading of
    the wall clock (what [utcOffset()] gives, here in milliseconds).  The
    time value of a reading is the reading less the offset there.  A
    date whose time value is out of range stands for an Invalid Date,
    also for the one that a text which is no date is parsed to. *)
Record LocalDate := {
  wallClock : Instant;
  utcOffset : Instant -> Z
}.

Definition timeValue (d : LocalDate) (wall : Instant) : Z :=
  wall - utcOffset d wall.

Definition isValid (d : LocalDate) : bool :=
  inRange (timeValue d (wallClock d)).

(** [.add(n, 'day')]: the day of the month is set [n] days on, on the
    wall clock.  [None] is an Invalid Date: what an invalid date stays,
    and what the result is when its time value leaves the range. *)
Definition addDays (d : LocalDate) (n : Z) : option Instant :=
  let wall := wallClock d + n * msPerDay in
  if isValid d && inRange (timeValue d wall) then Some wall else None.

(** [.hour()]: 0 to 23. *)
Definition hour (t : Instant) : Z := (t mod msPerDay) / msPerHour.

(** [.day()]: 0 (Sunday) to 6 (Saturday). *)
Definition day (t : Instant) : Z := (dayNumber t + 4) mod 7.

(** [this.isBefore(that, 'day')] is [this.endOf('day') < that] and
    [this.isAfter(that, 'day')] is [that < this.startOf('day')]. *)
Definition isBeforeDay (this that : Instant) : bool := endOfDay this <? that.
Definition isAfterDay (this that : Instant) : bool := that <? startOfDay this.

(** [this.isBetween(a, b, 'day')] of the isBetween plugin, called with
    no fourth argument: the inclusivity defaults to ['()'], both ends
    excluded, and the two bounds are accepted in either order.  A bound
    that is an Invalid Date has the time value NaN, with which every
    comparison of [isBefore] and [isAfter] is false. *)
Definition isBetweenDay (this : Instant) (a b : option Instant) : bool :=
  let isAfter that :=
    match that with Some that => isAfterDay this that | None => false end in
  let isBefore that :=
    match that with Some that => isBeforeDay this that | None => false end in
  (isAfter a && isBefore b) || (isBefore a && isAfter b).

End Dayjs.

Import Dayjs.

(** ** Configuration ([parseConfig()], the fields the client reads) *)

Record DaysAround := {
  daysAround_startDate : LocalDate;
  daysAround_start : Z;
  daysAround_end : Z
}.

Record TimesAround := {
  timesAround_start : Z;
  timesAround_end : Z
}.

Record LocationConfig := {
  sameDay : bool;
  preferredDays : list Z;
  daysAround : DaysAround;
  timesAround : TimesAround
}.

Record AppSettings := {
  cancelIfExist : bool;
  maxRetry : Z
}.

Record PersonalInfo := {
  firstName : string;
  lastName : string;
  dob : string;
  lastFourSSN : string;
  email : string;
  phoneNumber : option string;
  typeId : option Z
}.

Record Config := {
  location : LocationConfig;
  appSettings : AppSettings;
  personalInfo : PersonalInfo
}.

(** ** API data *)

Record TimeSlot := {
  SlotId : Z;
  StartDateTime : Instant;
  Duration : Z;
  FormattedStartDateTime : string
}.

(** An element of [LocationAvailabilityDates]. *)
Record LocationAvailabilityDate := {
  AvailabilityDate : Instant;
  AvailableTimeSlots : list TimeSlot
}.

Record AvailableLocationResponse := {
  Id : Z;
  Name : string
}.

Record ExistBookingResponse := {
  ServiceTypeId : Z;
  ConfirmationNumber : string;
  SiteName : string;
  BookingDateTime : Instant
}.

(** ** The availability filter of [getLocationDates] (lines 179-208) *)
Section AvailabilityFilter.

Variable config : Config.

Let locationConfig := location config.

(** [Array.prototype.includes] on a list of numbers. *)
Definition includes (l : list Z) (x : Z) : bool := existsb (Z.eqb x) l.

Definition preferredDaysCondition (date : LocationAvailabilityDate) : bool :=
  if (0 <? Z.of_nat (List.length (preferredDays locationConfig)))
  then includes (preferredDays locationConfig) (day (AvailabilityDate date))
  else true.

(** The callback of the filter at lines 182-192. *)
Definition dateInWindow (date : LocationAvailabilityDate) : bool :=
  let startDate := daysAround_startDate (daysAround (location config)) in
  isBetweenDay (AvailabilityDate date)
    (addDays startDate (daysAround_start (daysAround locationConfig)))
    (addDays startDate (daysAround_end (daysAround locationConfig)))
  && (0 <? Z.of_nat (List.length (AvailableTimeSlots date)))
  && preferredDaysCondition date.

(** The value of the variable [AvailableDates] at line 195. *)
Definition AvailableDates (response : list LocationAvailabilityDate)
  : list LocationAvailabilityDate :=
  if negb (sameDay locationConfig)
  then filter dateInWindow response
  else response.

(** The callback of the slot filter at lines 197-201. *)
Definition hourInWindow (timeSlot : TimeSlot) : bool :=
  let startHour := hour (StartDateTime timeSlot) in
  (timesAround_start (timesAround (location config)) <=? startHour)
  && (startHour <? timesAround_end (timesAround (location config))).

Definition filteredTimeSlots (date : LocationAvailabilityDate) : list TimeSlot :=
  filter hourInWindow (AvailableTimeSlots date).

(** The callback of the map at lines 196-205: the date with its slot
    list replaced. *)
Definition withFilteredTimeSlots (date : LocationAvailabilityDate)
  : LocationAvailabilityDate :=
  {| AvailabilityDate := AvailabilityDate date;
     AvailableTimeSlots := filteredTimeSlots date |}.

(** Lines 196-206. *)
Definition filteredAvailabilityDates (dates : list LocationAvailabilityDate)
  : list LocationAvailabilityDate :=
  filter (fun date => 0 <? Z.of_nat (List.length (AvailableTimeSlots date)))
         (map withFilteredTimeSlots dates).

(** Line 208, [filteredAvailabilityDates[0].AvailableTimeSlots[0]]:
    [None] stands for the [TypeError] that reading a property of
    [undefined] raises when the first list is empty.  The second index
    cannot miss: the filter at line 206 leaves no date without slots,
    and the model keeps the case only because the type has it. *)
Definition booking (dates : list LocationAvailabilityDate) : option TimeSlot :=
  match nth_error (filteredAvailabilityDates dates) 0 with
  | None => None
  | Some date => nth_error (AvailableTimeSlots date) 0
  end.

(** What the availability filter keeps of a raw date list: the dates
    among which line 208 picks.  When [AvailableDates] is empty the
    branch at line 195 is skipped and nothing is kept. *)
Definition availabilityFilter (response : list LocationAvailabilityDate)
  : list LocationAvailabilityDate :=
  filteredAvailabilityDates (AvailableDates response).

(** The test a raw date has to pass to be kept: the date test of its
    mode, and a slot left by the hour filter. *)
Definition passes (date : LocationAvailabilityDate) : bool :=
  (sameDay (location config) || dateInWindow date)
  && (0 <? Z.of_nat (List.length (filteredTimeSlots date))).

(** A date of the input is kept when its narrowed copy is among the
    dates the filter leaves. *)
Definition kept (response : list LocationAvailabilityDate)
    (date : LocationAvailabilityDate) : Prop :=
  In (withFilteredTimeSlots date) (availabilityFilter response).

End AvailabilityFilter.

(** ** Requests, responses and the state of the process *)

Record EligibilityResponse := {
  ResponseId : Z
}.

Record HoldSlotResponse := {
  SlotHeldSuccessfully : bool;
  ErrorMessage : string
}.

Record BookingInfo := {
  Booking_ConfirmationNumber : string
}.

(** [Booking] is [None] where the JSON has [null]. *)
Record BookSlotResponse := {
  Booking : option BookingInfo
}.

(** A parsed body, at the interface the caller casts [res.body.json()]
    to. *)
Inductive Json :=
| JsonExistBooking (bookings : list ExistBookingResponse)
| JsonEligibility (responses : list EligibilityResponse)
| JsonLocationDates (LocationAvailabilityDates : list LocationAvailabilityDate)
| JsonHoldSlot (held : HoldSlotResponse)
| JsonBookSlot (bookingInfo : BookSlotResponse)
| JsonOther.

Record Response := {
  statusCode : Z;
  bodyText : string;
  bodyJson : Json
}.

Record BookSlotPayload := {
  AdaRequired : bool;
  bsp_BookingDateTime : Instant;
  BookingDuration : Z;
  CardNumber : string;
  CellPhone : string;
  bsp_DateOfBirth : string;
  Email : string;
  bsp_FirstName : string;
  bsp_LastName : string;
  HomePhone : string;
  bsp_Last4Ssn : string;
  bsp_ResponseId : Z;
  SendSms : bool;
  bsp_ServiceTypeId : Z;
  SiteId : Z;
  SpanishLanguage : string
}.

Inductive Payload :=
| ExistBookingPayload (FirstName LastName DateOfBirth LastFourDigitsSsn : string)
| CancelBookingPayload
    (ConfirmationNumber DateOfBirth LastFourDigitsSsn FirstName LastName : string)
| EligibilityPayload
    (FirstName LastName DateOfBirth LastFourDigitsSsn CardNumber : string)
| AvailableLocationDatesPayload
    (LocationId PreferredDay : Z) (SameDay : bool) (TypeId : Z)
| HoldSlotPayload (DateOfBirth FirstName LastName Last4Ssn : string) (SlotId : Z)
| NewBookingPayload (p : BookSlotPayload).

Inductive Method := GET | POST.

(** A request as handed to [requestInstance.request]; [attempt] records
    the value of [retryTime] of the call of [requestApi] that issued it. *)
Record Request := {
  method : Method;
  path : string;
  body : Payload;
  attempt : Z
}.

Inductive Level := Info | Warn | Error.

Record LogEntry := {
  level : Level;
  message : string
}.

(** The field [existBooking] of the class, once [run] has set it. *)
Record ExistBooking := {
  exist : bool;
  response : list ExistBookingResponse
}.

(** The mutable fields of [TexasScheduler], [queue.isPaused], and what
    the process has done so far: the requests issued and the lines
    logged, oldest first. *)
Record State := {
  existBooking : option ExistBooking;
  isBooked : bool;
  isHolded : bool;
  isPaused : bool;
  sent : list Request;
  logged : list LogEntry
}.

(** How a call ends: it returns, the process exits ([process.exit]), or
    the promise is rejected. *)
Inductive Reason :=
| TypeError      (* a property of [undefined] is read *)
| NoReason       (* [Promise.reject()] *)
| IllTyped.      (* a body that is not of the interface it is cast to;
                    what the source does there is not modelled *)

Inductive Outcome (A : Type) :=
| Returned (a : A) (st : State)
| Exited (code : Z) (st : State)
| Rejected (r : Reason) (st : State).

Arguments Returned {A} a st.
Arguments Exited {A} code st.
Arguments Rejected {A} r st.

Definition M (A : Type) := State -> Outcome A.

Definition ret {A} (a : A) : M A := fun st => Returned a st.

Definition bind {A B} (m : M A) (k : A -> M B) : M B :=
  fun st =>
    match m st with
    | Returned a st' => k a st'
    | Exited code st' => Exited code st'
    | Rejected r st' => Rejected r st'
    end.

Notation "x <- m ;; k" := (bind m (fun x => k))
  (at level 61, m at next level, right associativity).
Notation "m ;; k" := (bind m (fun _ => k))
  (at level 61, right associativity).

Definition get : M State := fun st => Returned st st.
Definition modify (f : State -> State) : M unit := fun st => Returned tt (f st).
Definition exit {A} (code : Z) : M A := fun st => Exited code st.
Definition reject {A} (r : Reason) : M A := fun st => Rejected r st.
Definition when (b : bool) (m : M unit) : M unit := if b then m else ret tt.

(** The state a call leaves behind, however it ends. *)
Definition finalState {A} (o : Outcome A) : State :=
  match o with
  | Returned _ st | Exited _ st | Rejected _ st => st
  end.

Definition addLog (l : Level) (msg : string) (st : State) : State :=
  {| existBooking := existBooking st; isBooked := isBooked st;
     isHolded := isHolded st; isPaused := isPaused st;
     sent := sent st; logged := logged st ++ [{| level := l; message := msg |}] |}.

Definition addSent (r : Request) (st : State) : State :=
  {| existBooking := existBooking st; isBooked := isBooked st;
     isHolded := isHolded st; isPaused := isPaused st;
     sent := sent st ++ [r]; logged := logged st |}.

Definition setPaused (b : bool) (st : State) : State :=
  {| existBooking := existBooking st; isBooked := isBooked st;
     isHolded := isHolded st; isPaused := b;
     sent := sent st; logged := logged st |}.

Definition setHolded (b : bool) (st : State) : State :=
  {| existBooking := existBooking st; isBooked := isBooked st;
     isHolded := b; isPaused := isPaused st;
     sent := sent st; logged := logged st |}.

Definition setBooked (b : bool) (st : State) : State :=
  {| existBooking := existBooking st; isBooked := b;
     isHolded := isHolded st; isPaused := isPaused st;
     sent := sent st; logged := logged st |}.

(** [log.info], [log.warn], [log.error]; the time stamp and the colours
    of [src/Log/index.ts] are left out of the recorded line. *)
Module log.
Definition info (msg : string) : M unit := modify (addLog Info msg).
Definition warn (msg : string) : M unit := modify (addLog Warn msg).
Definition error (msg : string) : M unit := modify (addLog Error msg).
End log.

(** [queue.pause()] and [queue.start()]. *)
Module queue.
Definition pause : M unit := modify (setPaused true).
Definition start : M unit := modify (setPaused false).
End queue.

(** [Number.MAX_SAFE_INTEGER], 2^53 - 1: up to it, either side of
    zero, every integer is a number of JavaScript. *)
Definition MAX_SAFE_INTEGER : Z := 9007199254740991.

(** A number inside a template literal: the decimal digits of the
    integer, with its sign.  This is what JavaScript prints for a safe
    integer; from 10^21 on it prints an exponent form instead, which is
    left out here. *)
Definition showZ (z : Z) : string :=
  DecimalString.NilZero.string_of_int (Z.to_int z).

(** ** The methods of [TexasScheduler] *)
Section Client.

Variable config : Config.

(** The remote API: the response to the n-th request the process
    issues, counting from 0.  Every request is answered; a request that
    raises instead (no headers within [headersTimeout]) is not
    modelled. *)
Variable network : nat -> Response.

(** [JSON.stringify] on a booking response. *)
Variable JSON_stringify : BookSlotResponse -> string.

Let locationConfig := location config.

(** [this.config.personalInfo.typeId || 71]. *)
Definition typeIdOr71 : Z :=
  match typeId (personalInfo config) with
  | Some t => if t =? 0 then 71 else t
  | None => 71
  end.

(** [requestApi] (lines 224-246). *)
Equations? requestApi (path : string) (method : Method) (body : Payload)
    (retryTime : Z) (st : State) : Outcome Response
    by wf (Z.to_nat (maxRetry (appSettings config) - retryTime)) lt :=
  requestApi path method body retryTime st with
      negb (statusCode (network (List.length (sent st))) =? 200) => {
    | true with Z_lt_dec retryTime (maxRetry (appSettings config)) => {
      | left _ :=
          let response := network (List.length (sent st)) in
          requestApi path method body (retryTime + 1)
            (addLog Error (bodyText response)
              (addLog Warn
                ("Received status code " ++ showZ (statusCode response)
                   ++ ". Retrying...")
                (addSent {| method := method; path := path; body := body;
                            attempt := retryTime |} st)))
      | right _ :=
          let response := network (List.length (sent st)) in
          Exited 1
            (addLog Error
              ("Received status code " ++ showZ (statusCode response)
                 ++ ". Retry failed.")
              (addSent {| method := method; path := path; body := body;
                          attempt := retryTime |} st))
      }
    | false :=
        Returned (network (List.length (sent st)))
          (addSent {| method := method; path := path; body := body;
                      attempt := retryTime |} st)
    }.
Proof. lia. Qed.

(** The filter and the test of [checkExistBooking] (lines 74-77), on
    the parsed body. *)
Definition existBookingOf (res : list ExistBookingResponse) : ExistBooking :=
  let response :=
    filter (fun booking =>
              match typeId (personalInfo config) with
              | Some t => ServiceTypeId booking =? t
              | None => false
              end) res in
  if 0 <? Z.of_nat (List.length response)
  then {| exist := true; response := response |}
  else {| exist := false; response := response |}.

(** The request body of [checkExistBooking] (lines 65-70). *)
Definition existBookingRequestBody : Payload :=
  ExistBookingPayload (firstName (personalInfo config))
    (lastName (personalInfo config)) (dob (personalInfo config))
    (lastFourSSN (personalInfo config)).

(** [checkExistBooking] (lines 64-78). *)
Definition checkExistBooking : M ExistBooking :=
  let requestBody := existBookingRequestBody in
  res <- requestApi "/api/Booking" POST requestBody 0 ;;
  match bodyJson res with
  | JsonExistBooking bookings => ret (existBookingOf bookings)
  | _ => reject IllTyped
  end.

(** [cancelBooking] (lines 80-90). *)
Definition cancelBooking (ConfirmationNumber : string) : M unit :=
  let requestBody :=
    CancelBookingPayload ConfirmationNumber (dob (personalInfo config))
      (lastFourSSN (personalInfo config)) (firstName (personalInfo config))
      (lastName (personalInfo config)) in
  requestApi "/api/CancelBooking" POST requestBody 0 ;;
  log.info "Appointment cancelled.".

(** [getResponseId] (lines 92-102). *)
Definition getResponseId : M Z :=
  let requestBody :=
    EligibilityPayload (firstName (personalInfo config))
      (lastName (personalInfo config)) (dob (personalInfo config))
      (lastFourSSN (personalInfo config)) "" in
  res <- requestApi "/api/Eligibility" POST requestBody 0 ;;
  match bodyJson res with
  | JsonEligibility response =>
      match nth_error response 0 with
      | Some r => ret (ResponseId r)
      | None => reject TypeError
      end
  | _ => reject IllTyped
  end.

(** [this.existBooking?.exist]. *)
Definition existBooking_exist (st : State) : bool :=
  match existBooking st with
  | Some eb => exist eb
  | None => false
  end.

(** Lines 272-275 of [bookSlot]: the existing booking, if any, is
    cancelled first. *)
Definition cancelExisting : M unit :=
  st <- get ;;
  match existBooking st with
  | Some eb =>
      if exist eb then
        match nth_error (response eb) 0 with
        | Some b =>
            log.info ("Canceling existing appointment: "
                        ++ ConfirmationNumber b ++ ".") ;;
            cancelBooking (ConfirmationNumber b)
        | None => reject TypeError
        end
      else ret tt
  | None => ret tt
  end.

(** Lines 276-293 of [bookSlot]: the request body, [responseId] being
    the value [getResponseId] resolved to. *)
Definition newBookingRequestBody (booking : TimeSlot)
    (location : AvailableLocationResponse) (responseId : Z) : BookSlotPayload :=
  {| AdaRequired := false;
     bsp_BookingDateTime := StartDateTime booking;
     BookingDuration := Duration booking;
     CardNumber := "";
     CellPhone := match phoneNumber (personalInfo config) with
                  | Some p => if String.eqb p "" then "" else p
                  | None => ""
                  end;
     bsp_DateOfBirth := dob (personalInfo config);
     Email := email (personalInfo config);
     bsp_FirstName := firstName (personalInfo config);
     bsp_LastName := lastName (personalInfo config);
     HomePhone := "";
     bsp_Last4Ssn := lastFourSSN (personalInfo config);
     bsp_ResponseId := responseId;
     SendSms := match phoneNumber (personalInfo config) with
                | Some p => negb (String.eqb p "")
                | None => false
                end;
     bsp_ServiceTypeId := typeIdOr71;
     SiteId := Id location;
     SpanishLanguage := "N" |}.

(** [bookSlot] (lines 269-315). *)
Definition bookSlot (booking : TimeSlot) (location : AvailableLocationResponse)
  : M unit :=
  st <- get ;;
  if isBooked st then ret tt else
  log.info "Booking appointment..." ;;
  cancelExisting ;;
  responseId <- getResponseId ;;
  let requestBody := newBookingRequestBody booking location responseId in
  response <- requestApi "/api/NewBooking" POST (NewBookingPayload requestBody) 0 ;;
  if statusCode response =? 200 then
    match bodyJson response with
    | JsonBookSlot bookingInfo =>
        match Booking bookingInfo with
        | None =>
            st' <- get ;;
            when (isPaused st') queue.start ;;
            log.error "Failed to book appointment." ;;
            log.error (JSON_stringify bookingInfo) ;;
            modify (setHolded false)
        | Some b =>
            let appointmentURL :=
              ("https://public.txdpsscheduler.com/?b="
                 ++ Booking_ConfirmationNumber b)%string in
            modify (setBooked true) ;;
            log.info ("Appointment booked successfully. Confirmation Number: "
                        ++ Booking_ConfirmationNumber b ++ ".") ;;
            log.info ("Please visit the following URL to print your confirmation: "
                        ++ appointmentURL ++ ".") ;;
            exit 0
        end
    | _ => reject IllTyped
    end
  else
    st' <- get ;;
    when (isPaused st') queue.start ;;
    log.error "Failed to book appointment." ;;
    log.error (bodyText response).

(** [holdSlot] (lines 248-267). *)
Definition holdSlot (booking : TimeSlot) (location : AvailableLocationResponse)
  : M unit :=
  st <- get ;;
  if isHolded st then ret tt else
  let requestBody :=
    HoldSlotPayload (dob (personalInfo config)) (firstName (personalInfo config))
      (lastName (personalInfo config)) (lastFourSSN (personalInfo config))
      (SlotId booking) in
  res <- requestApi "/api/HoldSlot" POST requestBody 0 ;;
  match bodyJson res with
  | JsonHoldSlot response =>
      if negb (SlotHeldSuccessfully response) then
        log.error "Failed to hold appointment slot." ;;
        log.error ("Error Message: " ++ ErrorMessage response) ;;
        st' <- get ;;
        when (isPaused st') queue.start
      else
        log.info "Appointment slot held successfully." ;;
        modify (setHolded true) ;;
        bookSlot booking location
  | _ => reject IllTyped
  end.

(** The request body of [getLocationDates] (lines 171-177);
    [StartDate] is null. *)
Definition datesRequestBody (location : AvailableLocationResponse) : Payload :=
  AvailableLocationDatesPayload (Id location) 0 (sameDay locationConfig)
    typeIdOr71.

(** [getLocationDates] (lines 169-222).  The call of [holdSlot] at
    line 216 is commented out in the source, and so is absent here. *)
Definition getLocationDates (location : AvailableLocationResponse) : M bool :=
  let requestBody := datesRequestBody location in
  res <- requestApi "/api/AvailableLocationDates" POST requestBody 0 ;;
  match bodyJson res with
  | JsonLocationDates LocationAvailabilityDates =>
      let AvailableDates := AvailableDates config LocationAvailabilityDates in
      if negb (Z.of_nat (List.length AvailableDates) =? 0) then
        match booking config AvailableDates with
        | None => reject TypeError
        | Some booking =>
            log.info (Name location ++ " is available on "
                        ++ FormattedStartDateTime booking
                        ++ "! Booking appointment...") ;;
            st <- get ;;
            when (negb (isPaused st)) queue.pause ;;
            when (negb (cancelIfExist (appSettings config))
                  && existBooking_exist st)
              (log.warn "Cancel existing appointment is disabled. Please cancel your existing appointment manually." ;;
               exit 0) ;;
            ret true
        end
      else
        log.info (Name location ++ " is not available "
                    ++ (if sameDay locationConfig then "today."
                        else "in the next "
                               ++ showZ (daysAround_end (daysAround locationConfig))
                               ++ " days.")
                    ++ " ") ;;
        reject NoReason
  | _ => reject IllTyped
  end.

End Client.

(** ** The list of locations ([getAllLocationFromZipCodes], lines 104-123) *)

(** An element of the response of [/api/AvailableLocation/]: [site]
    holds the [Id] and the [Name] that [getLocationDates] reads; the
    rest is what the gathering and the selection of the locations read.
    [Distance], a number of miles, is a rational. *)
Record AvailableLocation := {
  site : AvailableLocationResponse;
  Address : string;
  Distance : Q;
  ZipCode : string
}.

(** [el.ZipCode = zipcodeList[i]] (line 118). *)
Definition setZipCode (zip : string) (el : AvailableLocation) : AvailableLocation :=
  {| site := site el; Address := Address el; Distance := Distance el;
     ZipCode := zip |}.

(** [Array.prototype.findIndex]: the index of the first element that
    passes the test, -1 when none does. *)
Fixpoint findIndex {A : Type} (test : A -> bool) (l : list A) : Z :=
  match l with
  | [] => -1
  | x :: l' =>
      if test x then 0
      else let i := findIndex test l' in
           if i <? 0 then -1 else i + 1
  end.

(** [Array.prototype.filter] with a callback that reads the index too;
    [from] is the index of the head of [l]. *)
Fixpoint filterFrom {A : Type} (callback : A -> Z -> bool) (from : Z) (l : list A)
  : list A :=
  match l with
  | [] => []
  | x :: l' =>
      if callback x from then x :: filterFrom callback (from + 1) l'
      else filterFrom callback (from + 1) l'
  end.

(** [Array.prototype.sort(compareFn)].  The sort is stable, and with a
    comparator that is consistent its result is the one stable
    arrangement; insertion, each element before the first one it does
    not exceed, computes it. *)
Fixpoint insertSorted {A : Type} (compareFn : A -> A -> Q) (x : A) (l : list A)
  : list A :=
  match l with
  | [] => [x]
  | y :: l' =>
      if Qle_bool (compareFn x y) 0 then x :: y :: l'
      else y :: insertSorted compareFn x l'
  end.

Definition sort {A : Type} (compareFn : A -> A -> Q) (l : list A) : list A :=
  fold_right (insertSorted compareFn) [] l.

(** The array [finalArray] after the loop of lines 107-120, given, for
    each zip code of the configuration in order, the parsed body of the
    response to its request. *)
Definition finalArray (responses : list (string * list AvailableLocation))
  : list AvailableLocation :=
  flat_map (fun r => map (setZipCode (fst r)) (snd r)) responses.

(** Line 122.  [sort] sorts [finalArray] in place and returns it, so
    the [findIndex] of the filter searches the sorted array. *)
Definition sortedUnique (finalArray : list AvailableLocation)
  : list AvailableLocation :=
  let sorted := sort (fun a b => (Distance a - Distance b)%Q) finalArray in
  filterFrom
    (fun elem index =>
       findIndex (fun obj => Id (site obj) =? Id (site elem)) sorted =? index)
    0 sorted.

(** What [getAllLocationFromZipCodes] returns, the requests apart. *)
Definition getAllLocationFromZipCodes_value
    (responses : list (string * list AvailableLocation)) : list AvailableLocation :=
  sortedUnique (finalArray responses).

(** ** The selection by distance ([requestAvailableLocation], lines 147-155) *)
Section SelectionByDistance.

(** [config.location.miles]. *)
Variable miles : Q.

(** A number inside a template literal. *)
Variable showNumber : Q -> string.

(** [Array.prototype.join]. *)
Fixpoint join (separator : string) (l : list string) : string :=
  match l with
  | [] => ""
  | [s] => s
  | s :: l' => s ++ separator ++ join separator l'
  end.

(** Lines 147-155 of [requestAvailableLocation], the branch taken when
    [pickDPSLocation] is not set: [response] is what
    [getAllLocationFromZipCodes] resolved to, and the value returned is
    the one stored in [this.availableLocation]. *)
Definition requestAvailableLocation_byDistance (response : list AvailableLocation)
  : M (list AvailableLocation) :=
  let filteredResponse :=
    filter (fun location => negb (Qle_bool miles (Distance location))) response in
  if Z.of_nat (List.length filteredResponse) =? 0 then
    match nth_error response 0 with
    | None => reject TypeError
    | Some nearest =>
        log.error ("No locations found. The nearest location is "
                     ++ showNumber (Distance nearest)
                     ++ " miles away. Please update your settings and try again.") ;;
        exit 0
    end
  else
    log.info ("Found " ++ showZ (Z.of_nat (List.length filteredResponse))
                ++ " locations that match your settings.") ;;
    log.info (join ", " (map (fun el => Name (site el)) filteredResponse)) ;;
    ret filteredResponse.

End SelectionByDistance.

(** ** One round of the poll ([getLocationDatesAll], lines 161 and 164) *)
Section PollRound.

Variable config : Config.
Variable network : nat -> Response.

(** Line 161. *)
Definition getLocationFunctions (availableLocation : list AvailableLocation)
  : list (M bool) :=
  map (fun location => getLocationDates config network (site location))
      availableLocation.

(** [queue.addAll(fns)] on the queue of concurrency 1, followed by
    [.catch(() => null)], as far as the state of the process goes: the
    functions run one after the other, in order; a function that
    resolves or rejects lets the next one start; no function starts
    while the queue is paused; [process.exit] ends the round. *)
Fixpoint addAll (fns : list (M bool)) : M unit :=
  match fns with
  | [] => ret tt
  | fn :: rest =>
      fun st =>
        if isPaused st then Returned tt st
        else match fn st with
             | Returned _ st' => addAll rest st'
             | Rejected _ st' => addAll rest st'
             | Exited code st' => Exited code st'
             end
  end.

End PollRound.

(** * Notions the statements use *)

(** ** States along a call of [requestApi] *)
Section RequestStates.

Variable network : nat -> Response.
Variables (url : string) (verb : Method) (payload : Payload).

(** The state after the request of attempt [retryTime] is issued,
    after its failure is logged before a retry, and after the last
    failure is logged. *)
Definition issued (retryTime : Z) (st : State) : State :=
  addSent {| method := verb; path := url; body := payload;
             attempt := retryTime |} st.

Definition retried (retryTime : Z) (st : State) : State :=
  let response := network (List.length (sent st)) in
  addLog Error (bodyText response)
    (addLog Warn
       ("Received status code " ++ showZ (statusCode response)
          ++ ". Retrying...") (issued retryTime st)).

Definition gaveUp (retryTime : Z) (st : State) : State :=
  let response := network (List.length (sent st)) in
  addLog Error
    ("Received status code " ++ showZ (statusCode response)
       ++ ". Retry failed.") (issued retryTime st).

End RequestStates.

(** The requests of [n] successive attempts, the first with counter
    [from]. *)
Fixpoint attempts (url : string) (verb : Method) (payload : Payload)
    (from : Z) (n : nat) : list Request :=
  match n with
  | O => []
  | S n' =>
      {| method := verb; path := url; body := payload; attempt := from |}
        :: attempts url verb payload (from + 1) n'
  end.

(** ** Statements of the spec that the code departs from *)
Section SpecStatements.

Variable config : Config.
Variable network : nat -> Response.

(** The wall-clock instant [t] of the zone of [d] is a date that a
    JavaScript [Date] can hold. *)
Definition representable (d : LocalDate) (t : Instant) : Prop :=
  - maxTime <= timeValue d t <= maxTime.

(** C2 as the spec states it, both endpoints included. *)
Definition windowed_kept_inclusive_claim
    (response : list LocationAvailabilityDate) : Prop :=
  let referenceDate :=
    wallClock (daysAround_startDate (daysAround (location config))) in
  let startOffsetDays := daysAround_start (daysAround (location config)) in
  let endOffsetDays := daysAround_end (daysAround (location config)) in
  forall date, In date response ->
    (kept config response date <->
     (dayNumber referenceDate + startOffsetDays
        <= dayNumber (AvailabilityDate date)
        <= dayNumber referenceDate + endOffsetDays)
     /\ (preferredDays (location config) = []
         \/ In (day (AvailabilityDate date)) (preferredDays (location config)))
     /\ filteredTimeSlots config date <> []).

(** C6 as the spec states it: a date with a non-empty slot list goes
    through as it is. *)
Definition sameDay_passes_unnarrowed_claim
    (response : list LocationAvailabilityDate) : Prop :=
  sameDay (location config) = true ->
  forall date, In date response -> AvailableTimeSlots date <> [] ->
    In date (availabilityFilter config response).

(** C3 as the spec states it: the exit code of that termination is
    not zero. *)
Definition policy_exit_nonzero_claim
    (location : AvailableLocationResponse) (st : State) : Prop :=
  exists code st',
    getLocationDates config network location st = Exited code st'
    /\ code <> 0.

End SpecStatements.

(** ** Sample data for the examples *)
Module Sample.

Definition operator : PersonalInfo :=
  {| firstName := "Jane"; lastName := "Doe"; dob := "01/31/2000";
     lastFourSSN := "6789"; email := "jane@example.org";
     phoneNumber := None; typeId := Some 71 |}.

(** Reference instant 0, day offsets 0 to 7, hours 8 to 12. *)
Definition config (sameDay cancelIfExist : bool) (preferredDays : list Z)
  : Config :=
  {| location :=
       {| sameDay := sameDay;
          preferredDays := preferredDays;
          daysAround := {| daysAround_startDate :=
                             {| wallClock := 0; utcOffset := fun _ => 0 |};
                           daysAround_start := 0;
                           daysAround_end := 7 |};
          timesAround := {| timesAround_start := 8;
                            timesAround_end := 12 |} |};
     appSettings := {| cancelIfExist := cancelIfExist; maxRetry := 2 |};
     personalInfo := operator |}.

Definition windowed : Config := config false true [].
Definition sameDayMode : Config := config true true [].

(** The slot of day [d] that starts at [h] o'clock. *)
Definition slot (d h : Z) : TimeSlot :=
  {| SlotId := d * 100 + h;
     StartDateTime := d * msPerDay + h * msPerHour;
     Duration := 30;
     FormattedStartDateTime := "day " ++ showZ d ++ ", " ++ showZ h ++ ":00" |}.

Definition date (d : Z) (hours : list Z) : LocationAvailabilityDate :=
  {| AvailabilityDate := d * msPerDay;
     AvailableTimeSlots := map (slot d) hours |}.

Definition office : AvailableLocationResponse :=
  {| Id := 42; Name := "Austin North" |}.

Definition idle (existBooking : option ExistBooking) : State :=
  {| existBooking := existBooking; isBooked := false; isHolded := false;
     isPaused := false; sent := []; logged := [] |}.

Definition booked : ExistBookingResponse :=
  {| ServiceTypeId := 71; ConfirmationNumber := "C-1";
     SiteName := "Austin South"; BookingDateTime := 3 * msPerDay |}.

Definition ok (json : Json) : Response :=
  {| statusCode := 200; bodyText := ""; bodyJson := json |}.

Definition unavailable : Response :=
  {| statusCode := 503; bodyText := "Service Unavailable"; bodyJson := JsonOther |}.

End Sample.

(** ** Sample networks and states *)
Module Scenario.

(** A network that answers every request with the same list of dates. *)
Definition datesNetwork (dates : list LocationAvailabilityDate) : nat -> Response :=
  fun _ => Sample.ok (JsonLocationDates dates).

(** A network for [bookSlot]: the eligibility call first, then a booking
    response whose Booking is null. *)
Definition nullBookingNetwork : nat -> Response :=
  fun n =>
    match n with
    | O => Sample.ok (JsonEligibility [{| ResponseId := 5 |}])
    | _ => Sample.ok (JsonBookSlot {| Booking := None |})
    end.

(** A network for [checkExistBooking]: two bookings, of service types 71
    and 81. *)
Definition otherService : ExistBookingResponse :=
  {| ServiceTypeId := 81; ConfirmationNumber := "C-2";
     SiteName := "Austin South"; BookingDateTime := 9 * msPerDay |}.

Definition bookingsNetwork : nat -> Response :=
  fun _ => Sample.ok (JsonExistBooking [otherService; Sample.booked]).

(** The operator holds a booking already. *)
Definition hasBooking : State :=
  Sample.idle (Some {| exist := true; response := [Sample.booked] |}).

(** A slot is held and the queue is paused. *)
Definition holding : State :=
  {| existBooking := None; isBooked := false; isHolded := true;
     isPaused := true; sent := []; logged := [] |}.

Definition stringify (info : BookSlotResponse) : string :=
  match Booking info with
  | None => "{Booking:null}"
  | Some b => "{Booking:{ConfirmationNumber:" ++ Booking_ConfirmationNumber b ++ "}}"
  end.

(** Auto-cancel is forbidden. *)
Definition keepExisting : Config := Sample.config false false [].

End Scenario.

(** Runs the call of a goal [exists st', call = _ ...] on its closed
    arguments. *)
Ltac evaluate_run :=
  match goal with
  | |- exists st', ?call = _ /\ _ =>
      let v := eval vm_compute in call in change call with v
  | |- exists st', ?call = _ =>
      let v := eval vm_compute in call in change call with v
  end.

(** ** Notions for the further properties *)

(** The [Id] of a location of the list. *)
Definition locationId (el : AvailableLocation) : Z := Id (site el).

(** [a] is at most as far as [b]. *)
Definition nearerOrEqual (a b : AvailableLocation) : Prop :=
  (Distance a <= Distance b)%Q.

(** The elements of [l] whose [Id] is neither in [seen] nor carried by
    an earlier element of [l]. *)
Fixpoint firstOccurrences (seen : list Z) (l : list AvailableLocation)
  : list AvailableLocation :=
  match l with
  | [] => []
  | x :: l' =>
      if existsb (Z.eqb (locationId x)) seen
      then firstOccurrences (seen ++ [locationId x]) l'
      else x :: firstOccurrences (seen ++ [locationId x]) l'
  end.

(** All the requests of [reqs] go to [url]. *)
Definition sentTo (url : string) (reqs : list Request) : Prop :=
  Forall (fun q => path q = url) reqs.

(** [st'] has the flags and the existing booking of [st]. *)
Definition sameFlags (st st' : State) : Prop :=
  existBooking st' = existBooking st
  /\ isBooked st' = isBooked st
  /\ isHolded st' = isHolded st
  /\ isPaused st' = isPaused st.

(** What a step that is one call of [requestApi] and then log lines
    leaves: the flags, and requests to its one endpoint. *)
Definition oneEndpoint {A : Type} (url : string) (m : M A) : Prop :=
  forall st,
    let o := m st in
    sameFlags st (finalState o)
    /\ (exists reqs, sent (finalState o) = sent st ++ reqs /\ sentTo url reqs)
    /\ match o with
       | Exited code _ => code = 1
       | _ => True
       end.

(** A sample location, given its [Id] and its distance. *)
Definition samplePlace (id : Z) (distance : Q) : AvailableLocation :=
  {| site := {| Id := id; Name := "DPS " ++ showZ id |};
     Address := ""; Distance := distance; ZipCode := "" |}.

(** ** More sample data *)
Module More.

(** The answers for two zip codes; the location 2 is returned for both,
    nearer to the second. *)
Definition responses : list (string * list AvailableLocation) :=
  [("78701", [samplePlace 1 (5 # 2); samplePlace 2 (1 # 1)]);
   ("78702", [samplePlace 2 (1 # 2); samplePlace 4 (3 # 1)])].

Definition showMiles (q : Q) : string :=
  showZ (Qnum q) ++ "/" ++ showZ (Z.pos (Qden q)).

(** Windowed mode with the given day offsets, hours and preferred days. *)
Definition configWith (startDay endDay startHour endHour : Z)
    (preferred : list Z) (type : option Z) : Config :=
  {| location :=
       {| sameDay := false;
          preferredDays := preferred;
          daysAround := {| daysAround_startDate :=
                             {| wallClock := 0; utcOffset := fun _ => 0 |};
                           daysAround_start := startDay;
                           daysAround_end := endDay |};
          timesAround := {| timesAround_start := startHour;
                            timesAround_end := endHour |} |};
     appSettings := {| cancelIfExist := true; maxRetry := 2 |};
     personalInfo :=
       {| firstName := "Jane"; lastName := "Doe"; dob := "01/31/2000";
          lastFourSSN := "6789"; email := "jane@example.org";
          phoneNumber := None; typeId := type |} |}.

(** Two failures, then the answer [json]. *)
Definition flakyNetwork (json : Json) : nat -> Response :=
  fun n => if (n <? 2)%nat then Sample.unavailable else Sample.ok json.

(** The eligibility call, then a booking confirmed under "C-9". *)
Definition bookedNetwork : nat -> Response :=
  fun n =>
    match n with
    | O => Sample.ok (JsonEligibility [{| ResponseId := 5 |}])
    | _ => Sample.ok (JsonBookSlot
                        {| Booking := Some {| Booking_ConfirmationNumber := "C-9" |} |})
    end.

(** The hold is refused. *)
Definition refusedHold : HoldSlotResponse :=
  {| SlotHeldSuccessfully := false; ErrorMessage := "Slot no longer available" |}.

Definition refusingNetwork : nat -> Response :=
  fun _ => Sample.ok (JsonHoldSlot refusedHold).

(** The eligibility answer is an empty array. *)
Definition noEligibilityNetwork : nat -> Response :=
  fun _ => Sample.ok (JsonEligibility []).

(** The queue is paused for a hold that has not been made yet. *)
Definition pausedForHold : State :=
  {| existBooking := None; isBooked := false; isHolded := false;
     isPaused := true; sent := []; logged := [] |}.

(** The booking is made. *)
Definition done : State :=
  {| existBooking := None; isBooked := true; isHolded := true;
     isPaused := true; sent := []; logged := [] |}.

End More.

(** * Properties *)

(** ** Calendar days *)
Section DayjsFacts.

Lemma msPerDay_pos : 0 < msPerDay.
Proof. reflexivity. Qed.

Lemma startOfDay_dayNumber t : startOfDay t = msPerDay * dayNumber t.
Proof.
  unfold startOfDay, dayNumber.
  pose proof (Z.div_mod t msPerDay) as E.
  pose proof msPerDay_pos. lia.
Qed.

Lemma dayNumber_days_on t n : dayNumber (t + n * msPerDay) = dayNumber t + n.
Proof.
  unfold dayNumber. apply Z.div_add.
  pose proof msPerDay_pos. lia.
Qed.

Lemma inRange_spec v : inRange v = true <-> - maxTime <= v <= maxTime.
Proof. unfold inRange. rewrite andb_true_iff, !Z.leb_le. tauto. Qed.

(** [add] gives a date when the date it starts from and the date it
    arrives at are both in range. *)
Lemma addDays_Some d n bound :
  addDays d n = Some bound <->
  (- maxTime <= timeValue d (wallClock d) <= maxTime)
  /\ (- maxTime <= timeValue d (wallClock d + n * msPerDay) <= maxTime)
  /\ bound = wallClock d + n * msPerDay.
Proof.
  unfold addDays, isValid. cbv zeta.
  destruct (inRange (timeValue d (wallClock d))) eqn:V;
    destruct (inRange (timeValue d (wallClock d + n * msPerDay))) eqn:R; simpl.
  - apply inRange_spec in V. apply inRange_spec in R.
    split; [intros [= <-]; auto | intros (_ & _ & ->); reflexivity].
  - split; [discriminate | ]. intros (_ & H & _).
    apply inRange_spec in H. congruence.
  - split; [discriminate | ]. intros (H & _).
    apply inRange_spec in H. congruence.
  - split; [discriminate | ]. intros (H & _).
    apply inRange_spec in H. congruence.
Qed.

(** [isAfter(that, 'day')]: on a later calendar day than [that]. *)
Lemma isAfterDay_dayNumber this that :
  isAfterDay this that = (dayNumber that <? dayNumber this).
Proof.
  unfold isAfterDay. rewrite startOfDay_dayNumber.
  pose proof msPerDay_pos as P.
  destruct (Z.ltb_spec that (msPerDay * dayNumber this)) as [L | L];
    destruct (Z.ltb_spec (dayNumber that) (dayNumber this)) as [R | R];
    try reflexivity; exfalso.
  - apply (Z.div_lt_upper_bound _ _ _ P) in L. unfold dayNumber in *. lia.
  - apply (Z.div_le_lower_bound _ _ _ P) in L. unfold dayNumber in *. lia.
Qed.

(** [isBefore(that, 'day')]: on an earlier calendar day than [that]. *)
Lemma isBeforeDay_dayNumber this that :
  isBeforeDay this that = (dayNumber this <? dayNumber that).
Proof.
  unfold isBeforeDay, endOfDay. rewrite startOfDay_dayNumber.
  pose proof msPerDay_pos as P.
  destruct (Z.ltb_spec (msPerDay * dayNumber this + msPerDay - 1) that) as [L | L];
    destruct (Z.ltb_spec (dayNumber this) (dayNumber that)) as [R | R];
    try reflexivity; exfalso.
  - assert (that < msPerDay * (dayNumber this + 1)) as U.
    { apply Z.lt_le_trans with (msPerDay * (dayNumber that + 1)).
      - unfold dayNumber at 1.
        pose proof (Z.div_mod that msPerDay) as E.
        pose proof (Z.mod_pos_bound that msPerDay P). lia.
      - apply Z.mul_le_mono_nonneg_l; lia. }
    lia.
  - assert (msPerDay * (dayNumber this + 1) <= that) as U.
    { apply Z.le_trans with (msPerDay * dayNumber that).
      - apply Z.mul_le_mono_nonneg_l; lia.
      - unfold dayNumber at 1.
        pose proof (Z.div_mod that msPerDay) as E.
        pose proof (Z.mod_pos_bound that msPerDay P). lia. }
    lia.
Qed.

(** [isBetween(a, b, 'day')] holds strictly between the days of the
    two bounds, taken in either order. *)
Lemma isBetweenDay_dayNumber this a b :
  isBetweenDay this (Some a) (Some b) = true <->
  (dayNumber a < dayNumber this < dayNumber b)
  \/ (dayNumber b < dayNumber this < dayNumber a).
Proof.
  unfold isBetweenDay. cbv zeta.
  rewrite !isAfterDay_dayNumber, !isBeforeDay_dayNumber.
  rewrite orb_true_iff, !andb_true_iff, !Z.ltb_lt. lia.
Qed.

Lemma isBetweenDay_invalid this a b :
  a = None \/ b = None -> isBetweenDay this a b = false.
Proof.
  unfold isBetweenDay. cbv zeta. intros [-> | ->].
  - reflexivity.
  - rewrite !andb_false_r. reflexivity.
Qed.

(** The test of the day window, on the days of the calendar: the
    reference date and the two bounds are dates in range, and the day
    lies strictly between the days of the bounds, in either order. *)
Lemma isBetweenDay_addDays this d n m :
  isBetweenDay this (addDays d n) (addDays d m) = true <->
  (- maxTime <= timeValue d (wallClock d) <= maxTime)
  /\ (- maxTime <= timeValue d (wallClock d + n * msPerDay) <= maxTime)
  /\ (- maxTime <= timeValue d (wallClock d + m * msPerDay) <= maxTime)
  /\ ((dayNumber (wallClock d) + n < dayNumber this
        < dayNumber (wallClock d) + m)
      \/ (dayNumber (wallClock d) + m < dayNumber this
          < dayNumber (wallClock d) + n)).
Proof.
  destruct (addDays d n) as [a | ] eqn:A; destruct (addDays d m) as [b | ] eqn:B.
  - apply addDays_Some in A as (V & Ra & ->).
    apply addDays_Some in B as (_ & Rb & ->).
    rewrite isBetweenDay_dayNumber, !dayNumber_days_on. tauto.
  - rewrite isBetweenDay_invalid by auto. split; [discriminate | ].
    intros (V & _ & Rm & _). exfalso.
    assert (addDays d m = Some (wallClock d + m * msPerDay)) as C
      by (apply addDays_Some; auto).
    congruence.
  - rewrite isBetweenDay_invalid by auto. split; [discriminate | ].
    intros (V & Rn & _). exfalso.
    assert (addDays d n = Some (wallClock d + n * msPerDay)) as C
      by (apply addDays_Some; auto).
    congruence.
  - rewrite isBetweenDay_invalid by auto. split; [discriminate | ].
    intros (V & Rn & _). exfalso.
    assert (addDays d n = Some (wallClock d + n * msPerDay)) as C
      by (apply addDays_Some; auto).
    congruence.
Qed.

Lemma hour_range t : 0 <= hour t < 24.
Proof.
  unfold hour.
  pose proof (Z.mod_pos_bound t msPerDay msPerDay_pos) as B.
  split.
  - apply Z.div_pos; [lia | reflexivity].
  - apply Z.div_lt_upper_bound; [reflexivity | ].
    change (msPerHour * 24) with msPerDay. lia.
Qed.

End DayjsFacts.

(** ** Lists *)
Section ListFacts.

Context {A B : Type}.

Lemma length_pos_nonempty (l : list A) :
  (0 <? Z.of_nat (List.length l)) = true <-> l <> [].
Proof.
  destruct l as [| x l]; simpl.
  - split; [discriminate | congruence].
  - split; [discriminate | intros _; apply Z.ltb_lt; lia].
Qed.

Lemma filter_map_swap (p : B -> bool) (f : A -> B) (l : list A) :
  filter p (map f l) = map f (filter (fun x => p (f x)) l).
Proof.
  induction l as [| x l IH]; simpl; [reflexivity | ].
  destruct (p (f x)); simpl; rewrite IH; reflexivity.
Qed.

Lemma filter_filter (p q : A -> bool) (l : list A) :
  filter p (filter q l) = filter (fun x => q x && p x) l.
Proof.
  induction l as [| x l IH]; simpl; [reflexivity | ].
  destruct (q x); simpl; [destruct (p x) | ]; rewrite IH; reflexivity.
Qed.

(** The head of a filtered list is the first element of the list that
    passes the test. *)
Lemma filter_head_first (p : A -> bool) (l : list A) x rest :
  filter p l = x :: rest ->
  exists pre post,
    l = pre ++ x :: post
    /\ (forall y, In y pre -> p y = false)
    /\ p x = true.
Proof.
  induction l as [| a l IH]; simpl; [discriminate | ].
  destruct (p a) eqn:Pa; intros E.
  - injection E as -> _. exists [], l. repeat split; auto.
    intros y [].
  - destruct (IH E) as (pre & post & -> & Hpre & Hx).
    exists (a :: pre), post. repeat split; auto.
    intros y [<- | Hy]; auto.
Qed.

End ListFacts.

(** ** The availability filter *)
Section AvailabilityFilterFacts.

Variable config : Config.

Lemma AvailableDates_filter response :
  AvailableDates config response =
  filter (fun date => sameDay (location config) || dateInWindow config date)
         response.
Proof.
  unfold AvailableDates. destruct (sameDay (location config)); simpl.
  - induction response as [| d l IH]; simpl; congruence.
  - reflexivity.
Qed.

(** The filter keeps, in the order of the input, the dates that pass,
    each with its hour-filtered slots. *)
Lemma availabilityFilter_passes response :
  availabilityFilter config response =
  map (withFilteredTimeSlots config) (filter (passes config) response).
Proof.
  unfold availabilityFilter, filteredAvailabilityDates.
  rewrite filter_map_swap, AvailableDates_filter, filter_filter.
  reflexivity.
Qed.

Lemma filteredTimeSlots_incl date slot :
  In slot (filteredTimeSlots config date) -> In slot (AvailableTimeSlots date).
Proof. unfold filteredTimeSlots. intros H. apply filter_In in H. tauto. Qed.

Lemma filteredTimeSlots_nonempty_raw date :
  filteredTimeSlots config date <> [] -> AvailableTimeSlots date <> [].
Proof.
  unfold filteredTimeSlots. destruct (AvailableTimeSlots date); simpl; congruence.
Qed.

(** [passes config] reads only the day of the date and its filtered slots. *)
Lemma passes_spec date :
  passes config date = true <->
  (sameDay (location config) = true
   \/ (isBetweenDay (AvailabilityDate date)
         (addDays (daysAround_startDate (daysAround (location config)))
                  (daysAround_start (daysAround (location config))))
         (addDays (daysAround_startDate (daysAround (location config)))
                  (daysAround_end (daysAround (location config)))) = true
       /\ preferredDaysCondition config date = true))
  /\ filteredTimeSlots config date <> [].
Proof.
  unfold passes, dateInWindow.
  rewrite andb_true_iff, orb_true_iff, !andb_true_iff, !length_pos_nonempty.
  split.
  - intros [[S | [[I _] P]] F]; auto.
  - intros [[S | [I P]] F]; split; auto.
    right. repeat split; auto. apply filteredTimeSlots_nonempty_raw, F.
Qed.

Lemma passes_ext date date' :
  withFilteredTimeSlots config date' = withFilteredTimeSlots config date ->
  passes config date' = passes config date.
Proof.
  intros E. injection E as Ed Es.
  apply eq_true_iff_eq. rewrite !passes_spec.
  unfold preferredDaysCondition. rewrite Ed, Es. reflexivity.
Qed.

Lemma kept_passes response date :
  In date response -> (kept config response date <-> passes config date = true).
Proof.
  intros Hin. unfold kept. rewrite availabilityFilter_passes, in_map_iff.
  split.
  - intros (date' & E & H). apply filter_In in H as [_ H].
    rewrite <- (passes_ext _ _ E). exact H.
  - intros H. exists date. split; [reflexivity | ].
    apply filter_In. auto.
Qed.

Lemma includes_In l x : includes l x = true <-> In x l.
Proof.
  unfold includes. rewrite existsb_exists. split.
  - intros (y & Hy & E). apply Z.eqb_eq in E. subst. exact Hy.
  - intros H. exists x. split; [exact H | apply Z.eqb_refl].
Qed.

Lemma preferredDaysCondition_spec date :
  preferredDaysCondition config date = true <->
  preferredDays (location config) = []
  \/ In (day (AvailabilityDate date)) (preferredDays (location config)).
Proof.
  unfold preferredDaysCondition.
  destruct (preferredDays (location config)) as [| p l] eqn:E.
  - simpl. tauto.
  - replace (0 <? Z.of_nat (List.length (p :: l))) with true
      by (symmetry; apply length_pos_nonempty; discriminate).
    rewrite includes_In. split; [auto | intros [H | H]; [discriminate | exact H]].
Qed.

Lemma hourInWindow_spec slot :
  hourInWindow config slot = true <->
  timesAround_start (timesAround (location config))
    <= hour (StartDateTime slot)
    < timesAround_end (timesAround (location config)).
Proof.
  unfold hourInWindow. rewrite andb_true_iff, Z.leb_le, Z.ltb_lt. tauto.
Qed.

End AvailabilityFilterFacts.

(** ** Claims on the availability filter *)
Section FilterClaims.

Variable config : Config.

Let referenceDate := daysAround_startDate (daysAround (location config)).
Let startOffsetDays := daysAround_start (daysAround (location config)).
Let endOffsetDays := daysAround_end (daysAround (location config)).
Let windowStartHour := timesAround_start (timesAround (location config)).
Let windowEndHour := timesAround_end (timesAround (location config)).

(** C7. A slot of a date survives the hour filter iff its start hour
    h satisfies windowStartHour <= h < windowEndHour; the end hour is
    excluded. *)
Theorem hour_filter_half_open (date : LocationAvailabilityDate) (slot : TimeSlot) :
  In slot (filteredTimeSlots config date) <->
  In slot (AvailableTimeSlots date)
  /\ windowStartHour <= hour (StartDateTime slot) < windowEndHour.
Proof.
  unfold filteredTimeSlots. rewrite filter_In, hourInWindow_spec. reflexivity.
Qed.

(** C2, amended. In windowed mode a date of the input is kept iff the
    reference date and the two bounds, referenceDate + startOffsetDays
    and referenceDate + endOffsetDays, are dates in the range of a
    JavaScript Date, and its calendar day lies strictly between the
    calendar days of the two bounds, both endpoints excluded, whichever
    of the two bounds comes first, and the preferred-weekday set is
    empty or holds its weekday, and a slot of it survives the hour
    filter. *)
Theorem windowed_kept_strictly_between response date :
  sameDay (location config) = false ->
  In date response ->
  (kept config response date <->
   (representable referenceDate (wallClock referenceDate)
    /\ representable referenceDate
         (wallClock referenceDate + startOffsetDays * msPerDay)
    /\ representable referenceDate
         (wallClock referenceDate + endOffsetDays * msPerDay))
   /\ ((dayNumber (wallClock referenceDate) + startOffsetDays
         < dayNumber (AvailabilityDate date)
         < dayNumber (wallClock referenceDate) + endOffsetDays)
       \/ (dayNumber (wallClock referenceDate) + endOffsetDays
           < dayNumber (AvailabilityDate date)
           < dayNumber (wallClock referenceDate) + startOffsetDays))
   /\ (preferredDays (location config) = []
       \/ In (day (AvailabilityDate date)) (preferredDays (location config)))
   /\ filteredTimeSlots config date <> []).
Proof.
  intros S Hin. rewrite (kept_passes config response date Hin), passes_spec.
  rewrite S, isBetweenDay_addDays, preferredDaysCondition_spec.
  subst referenceDate startOffsetDays endOffsetDays. unfold representable.
  split.
  - intros [[D | [(V & Rs & Re & B) P]] F]; [discriminate | ].
    exact (conj (conj V (conj Rs Re)) (conj B (conj P F))).
  - intros ((V & Rs & Re) & B & P & F).
    exact (conj (or_intror (conj (conj V (conj Rs (conj Re B))) P)) F).
Qed.

(** C6, amended. In same-day mode no day window and no weekday set
    narrows the dates, the hour filter still narrows the slots: a date
    of the input is passed, with the slots the hour filter leaves, iff
    at least one of its slots survives the hour filter. *)
Theorem sameDay_kept_iff response date :
  sameDay (location config) = true ->
  In date response ->
  (kept config response date <-> filteredTimeSlots config date <> []).
Proof.
  intros S Hin. rewrite (kept_passes config response date Hin), passes_spec.
  rewrite S. split; [tauto | auto].
Qed.

End FilterClaims.

Lemma windowed_kept_strictly_between_witness :
  sameDay (location Sample.windowed) = false
  /\ In (Sample.date 1 [7; 10; 14])
        [Sample.date 0 [9]; Sample.date 1 [7; 10; 14]]
  /\ (kept Sample.windowed [Sample.date 0 [9]; Sample.date 1 [7; 10; 14]]
           (Sample.date 1 [7; 10; 14]) <->
      (- maxTime <= 0 - 0 <= maxTime
       /\ - maxTime <= 0 + 0 * msPerDay - 0 <= maxTime
       /\ - maxTime <= 0 + 7 * msPerDay - 0 <= maxTime)
      /\ ((0 + 0 < 1 < 0 + 7) \/ (0 + 7 < 1 < 0 + 0))
      /\ (@nil Z = [] \/ In 5 [])
      /\ [Sample.slot 1 10] <> []).
Proof.
  assert (sameDay (location Sample.windowed) = false) as S by reflexivity.
  assert (In (Sample.date 1 [7; 10; 14])
             [Sample.date 0 [9]; Sample.date 1 [7; 10; 14]]) as I
    by (simpl; auto).
  split; [exact S | split; [exact I | ]].
  exact (windowed_kept_strictly_between Sample.windowed _ _ S I).
Defined.

(** C2 fails as stated, in three ways.  A date on the day of
    referenceDate + startOffsetDays, with a slot at 9 o'clock, is within
    the inclusive window and is not kept.  With the offsets 7 and 0, the
    window of the claim is empty and the date of day 3 is kept.  With
    the end offset 10^9, past the range of a Date, the date of day 1 is
    within the window and is not kept. *)
Lemma windowed_claim_fails :
  ~ windowed_kept_inclusive_claim Sample.windowed [Sample.date 0 [9]]
  /\ ~ windowed_kept_inclusive_claim (More.configWith 7 0 8 12 [] (Some 71))
        [Sample.date 3 [9]]
  /\ ~ windowed_kept_inclusive_claim
        (More.configWith 0 1000000000 8 12 [] (Some 71)) [Sample.date 1 [9]].
Proof.
  split; [ | split].
  - intros H. specialize (H (Sample.date 0 [9]) (or_introl eq_refl)).
    destruct H as [_ H].
    assert (kept Sample.windowed [Sample.date 0 [9]] (Sample.date 0 [9])) as K.
    { apply H. repeat split.
      - vm_compute. discriminate.
      - vm_compute. discriminate.
      - left. reflexivity.
      - vm_compute. discriminate. }
    vm_compute in K. exact K.
  - intros H. specialize (H (Sample.date 3 [9]) (or_introl eq_refl)).
    destruct H as [H _].
    assert (kept (More.configWith 7 0 8 12 [] (Some 71)) [Sample.date 3 [9]]
                 (Sample.date 3 [9])) as K
      by (vm_compute; left; reflexivity).
    destruct (H K) as [[L _] _]. vm_compute in L. apply L. reflexivity.
  - intros H. specialize (H (Sample.date 1 [9]) (or_introl eq_refl)).
    destruct H as [_ H].
    assert (kept (More.configWith 0 1000000000 8 12 [] (Some 71))
                 [Sample.date 1 [9]] (Sample.date 1 [9])) as K.
    { apply H. repeat split.
      - vm_compute. discriminate.
      - vm_compute. discriminate.
      - left. reflexivity.
      - vm_compute. discriminate. }
    vm_compute in K. exact K.
Qed.

Lemma sameDay_kept_iff_witness :
  sameDay (location Sample.sameDayMode) = true
  /\ In (Sample.date 30 [7; 10]) [Sample.date 30 [7; 10]]
  /\ (kept Sample.sameDayMode [Sample.date 30 [7; 10]] (Sample.date 30 [7; 10])
      <-> [Sample.slot 30 10] <> []).
Proof.
  assert (sameDay (location Sample.sameDayMode) = true) as S by reflexivity.
  assert (In (Sample.date 30 [7; 10]) [Sample.date 30 [7; 10]]) as I
    by (simpl; auto).
  split; [exact S | split; [exact I | ]].
  exact (sameDay_kept_iff Sample.sameDayMode _ _ S I).
Defined.

(** C6 fails as stated: in same-day mode a date whose only slot starts
    at 7 o'clock, outside the hour window 8 to 12, has a non-empty slot
    list and is not passed. *)
Lemma sameDay_hour_window_applies :
  ~ sameDay_passes_unnarrowed_claim Sample.sameDayMode [Sample.date 1 [7]].
Proof.
  intros H.
  specialize (H eq_refl (Sample.date 1 [7]) (or_introl eq_refl)).
  vm_compute in H. apply H. discriminate.
Qed.

(** ** Claims on the selection of the candidate *)

(** The spec's scenario: one date with slots at 7, 10 and 14 o'clock,
    hours 8 to 12. *)
Example hours_7_10_14 :
  availabilityFilter Sample.windowed [Sample.date 1 [7; 10; 14]]
  = [Sample.date 1 [10]]
  /\ booking Sample.windowed
       (AvailableDates Sample.windowed [Sample.date 1 [7; 10; 14]])
     = Some (Sample.slot 1 10).
Proof. split; reflexivity. Qed.

Section SelectionClaims.

Variable config : Config.

Lemma booking_head dates date rest :
  filteredAvailabilityDates config dates = date :: rest ->
  booking config dates = nth_error (AvailableTimeSlots date) 0.
Proof. unfold booking. intros ->. reflexivity. Qed.

Lemma filteredAvailabilityDates_In dates date :
  In date (filteredAvailabilityDates config dates) <->
  exists raw, In raw dates
              /\ date = withFilteredTimeSlots config raw
              /\ filteredTimeSlots config raw <> [].
Proof.
  unfold filteredAvailabilityDates. rewrite filter_In, in_map_iff.
  rewrite length_pos_nonempty.
  split.
  - intros [(raw & <- & Hin) Hne]. exists raw. auto.
  - intros (raw & Hin & -> & Hne). split; [exists raw | ]; auto.
Qed.

(** The selection at line 208 has a value iff some date keeps a slot. *)
Lemma booking_defined_iff dates :
  (exists slot, booking config dates = Some slot) <->
  exists date, In date dates /\ filteredTimeSlots config date <> [].
Proof.
  unfold booking.
  destruct (filteredAvailabilityDates config dates) as [| d rest] eqn:E; simpl.
  - split.
    + intros [slot H]. discriminate.
    + intros (date & Hin & Hne). exfalso.
      assert (In (withFilteredTimeSlots config date)
                 (filteredAvailabilityDates config dates)) as H
        by (apply filteredAvailabilityDates_In; exists date; auto).
      rewrite E in H. exact H.
  - assert (In d (filteredAvailabilityDates config dates)) as H
      by (rewrite E; left; reflexivity).
    apply filteredAvailabilityDates_In in H as (raw & Hin & -> & Hne).
    split.
    + intros _. exists raw. auto.
    + intros _. simpl. destruct (filteredTimeSlots config raw) as [| s l].
      * congruence.
      * exists s. reflexivity.
Qed.

(** C8. When the filter leaves at least one date, the chosen candidate
    is the first slot, in input order, that passes the hour filter, of
    the first date, in input order, that is kept: every date before it
    in the input is dropped by the date test of the mode or has no
    slot left, and every slot before the candidate in that date fails
    the hour filter. *)
Theorem booking_first_in_input_order (response : list LocationAvailabilityDate) :
  availabilityFilter config response <> [] ->
  exists pre date post spre slot spost,
    response = pre ++ date :: post
    /\ (forall d, In d pre ->
          In d (AvailableDates config response) ->
          filteredTimeSlots config d = [])
    /\ In date (AvailableDates config response)
    /\ AvailableTimeSlots date = spre ++ slot :: spost
    /\ (forall s, In s spre -> hourInWindow config s = false)
    /\ hourInWindow config slot = true
    /\ booking config (AvailableDates config response) = Some slot.
Proof.
  intros Hne.
  pose proof (availabilityFilter_passes config response) as E.
  destruct (filter (passes config) response) as [| date rest] eqn:F;
    [rewrite E in Hne; simpl in Hne; congruence | ].
  destruct (filter_head_first _ _ _ _ F) as (pre & post & R & Hpre & Hd).
  unfold passes in Hd. apply andb_true_iff in Hd as [Hmode Hslots].
  apply length_pos_nonempty in Hslots.
  destruct (filteredTimeSlots config date) as [| slot srest] eqn:FS;
    [congruence | ].
  destruct (filter_head_first _ _ _ _ FS) as (spre & spost & RS & Hspre & Hs).
  exists pre, date, post, spre, slot, spost.
  split; [exact R | ].
  split.
  { intros d Hin Hav. specialize (Hpre d Hin). unfold passes in Hpre.
    rewrite AvailableDates_filter in Hav. apply filter_In in Hav as [_ Hav].
    rewrite Hav in Hpre. simpl in Hpre.
    destruct (filteredTimeSlots config d); [reflexivity | ].
    exfalso. simpl in Hpre. discriminate. }
  split.
  { rewrite AvailableDates_filter. apply filter_In. split; [ | exact Hmode].
    rewrite R. apply in_or_app. right. left. reflexivity. }
  split; [exact RS | ].
  split; [exact Hspre | ].
  split; [exact Hs | ].
  unfold availabilityFilter in E. simpl in E.
  rewrite (booking_head _ _ _ E). simpl. rewrite FS. reflexivity.
Qed.

End SelectionClaims.

(** The order of the input decides, not the value of the time stamps:
    with the later day first and, in it, 11 o'clock before 9 o'clock,
    the candidate is the 11 o'clock slot of the later day. *)
Example booking_not_earliest :
  booking Sample.windowed
    (AvailableDates Sample.windowed
       [Sample.date 0 [9]; Sample.date 6 [7; 11; 9]; Sample.date 2 [8]])
  = Some (Sample.slot 6 11)
  /\ StartDateTime (Sample.slot 2 8) < StartDateTime (Sample.slot 6 9)
     < StartDateTime (Sample.slot 6 11).
Proof. split; [reflexivity | vm_compute; split; reflexivity]. Qed.

Lemma booking_first_in_input_order_witness :
  availabilityFilter Sample.windowed
    [Sample.date 0 [9]; Sample.date 6 [7; 11; 9]; Sample.date 2 [8]] <> []
  /\ exists pre date post spre slot spost,
      [Sample.date 0 [9]; Sample.date 6 [7; 11; 9]; Sample.date 2 [8]]
        = pre ++ date :: post
      /\ (forall d, In d pre ->
            In d (AvailableDates Sample.windowed
                    [Sample.date 0 [9]; Sample.date 6 [7; 11; 9];
                     Sample.date 2 [8]]) ->
            filteredTimeSlots Sample.windowed d = [])
      /\ In date (AvailableDates Sample.windowed
                    [Sample.date 0 [9]; Sample.date 6 [7; 11; 9];
                     Sample.date 2 [8]])
      /\ AvailableTimeSlots date = spre ++ slot :: spost
      /\ (forall s, In s spre -> hourInWindow Sample.windowed s = false)
      /\ hourInWindow Sample.windowed slot = true
      /\ booking Sample.windowed
           (AvailableDates Sample.windowed
              [Sample.date 0 [9]; Sample.date 6 [7; 11; 9]; Sample.date 2 [8]])
         = Some slot.
Proof.
  assert (availabilityFilter Sample.windowed
            [Sample.date 0 [9]; Sample.date 6 [7; 11; 9]; Sample.date 2 [8]]
          <> []) as H by (vm_compute; discriminate).
  split; [exact H | ].
  exact (booking_first_in_input_order Sample.windowed _ H).
Defined.

(** ** The transport *)

Section TransportFacts.

Variable config : Config.
Variable network : nat -> Response.

Let ceiling := maxRetry (appSettings config).

Lemma requestApi_step path method body retryTime st :
  requestApi config network path method body retryTime st =
  let response := network (List.length (sent st)) in
  let st1 := addSent {| method := method; path := path; body := body;
                        attempt := retryTime |} st in
  if negb (statusCode response =? 200) then
    if retryTime <? ceiling then
      requestApi config network path method body (retryTime + 1)
        (addLog Error (bodyText response)
           (addLog Warn
              ("Received status code " ++ showZ (statusCode response)
                 ++ ". Retrying...") st1))
    else
      Exited 1
        (addLog Error
           ("Received status code " ++ showZ (statusCode response)
              ++ ". Retry failed.") st1)
  else Returned response st1.
Proof.
  simp requestApi. cbv zeta. subst ceiling.
  destruct (negb (statusCode (network (List.length (sent st))) =? 200));
    simpl; [ | reflexivity].
  destruct (Z_lt_dec retryTime (maxRetry (appSettings config))) as [L | L];
    destruct (Z.ltb_spec retryTime (maxRetry (appSettings config)));
    simpl; try reflexivity; lia.
Qed.

Section OneRequest.

Variables (url : string) (verb : Method) (payload : Payload).

Let run := requestApi config network url verb payload.

(** Induction along the calls of [requestApi]. *)
Lemma requestApi_induction (P : Z -> State -> Outcome Response -> Prop) :
  (forall r st,
      statusCode (network (List.length (sent st))) = 200 ->
      P r st (Returned (network (List.length (sent st))) (issued url verb payload r st))) ->
  (forall r st,
      statusCode (network (List.length (sent st))) <> 200 ->
      r < ceiling ->
      P (r + 1) (retried network url verb payload r st) (run (r + 1) (retried network url verb payload r st)) ->
      P r st (run (r + 1) (retried network url verb payload r st))) ->
  (forall r st,
      statusCode (network (List.length (sent st))) <> 200 ->
      ceiling <= r ->
      P r st (Exited 1 (gaveUp network url verb payload r st))) ->
  forall r st, P r st (run r st).
Proof.
  intros Hok Hretry Hfail r st.
  remember (Z.to_nat (ceiling - r)) as n eqn:Hn.
  revert r st Hn.
  induction n as [| n IH]; intros r st Hn; subst run;
    rewrite requestApi_step; cbv zeta;
    destruct (Z.eqb_spec (statusCode (network (List.length (sent st)))) 200)
      as [E | E]; simpl; try (apply Hok; exact E);
    fold ceiling;
    destruct (Z.ltb_spec r ceiling) as [L | L];
    try (apply Hfail; assumption); try lia.
  apply Hretry; try assumption. apply IH. lia.
Qed.

(** A call touches the fields of the class in no way; it only adds
    requests of its own path, method and body, and log lines. *)
Lemma requestApi_frame r st :
  let st' := finalState (run r st) in
  existBooking st' = existBooking st
  /\ isBooked st' = isBooked st
  /\ isHolded st' = isHolded st
  /\ isPaused st' = isPaused st
  /\ (exists reqs,
        sent st' = sent st ++ reqs
        /\ Forall (fun q => path q = url) reqs)
  /\ (exists lines, logged st' = logged st ++ lines).
Proof.
  apply (requestApi_induction
           (fun r st o =>
              let st' := finalState o in
              existBooking st' = existBooking st
              /\ isBooked st' = isBooked st
              /\ isHolded st' = isHolded st
              /\ isPaused st' = isPaused st
              /\ (exists reqs,
                    sent st' = sent st ++ reqs
                    /\ Forall (fun q => path q = url) reqs)
              /\ (exists lines, logged st' = logged st ++ lines)));
    clear r st; intros r st.
  - intros _. simpl. repeat split; try reflexivity.
    + eexists. split; [reflexivity | ]. repeat constructor.
    + exists []. symmetry. apply app_nil_r.
  - intros _ _ (Eb & Ek & Eh & Ep & (reqs & Es & F) & (lines & El)).
    cbv zeta in *. simpl in *.
    repeat split; try assumption.
    + eexists. split.
      * rewrite Es. rewrite <- app_assoc. reflexivity.
      * constructor; [reflexivity | exact F].
    + eexists. rewrite El. rewrite <- !app_assoc. reflexivity.
  - intros _ _. simpl. repeat split; try reflexivity.
    + eexists. split; [reflexivity | ]. repeat constructor.
    + eexists. reflexivity.
Qed.

(** [requestApi] returns only responses of status 200. *)
Lemma requestApi_Returned_200 r st res st' :
  run r st = Returned res st' -> statusCode res = 200.
Proof.
  revert res st'.
  apply (requestApi_induction
           (fun r st o => forall res st',
                o = Returned res st' -> statusCode res = 200));
    clear r st; intros r st.
  - intros E res st' H. injection H as <- _. exact E.
  - intros _ _ IH. exact IH.
  - intros _ _ res st' H. discriminate.
Qed.

End OneRequest.

End TransportFacts.

(** ** Claims on the transport *)

Lemma attempts_length url verb payload from n :
  List.length (attempts url verb payload from n) = n.
Proof. revert from. induction n as [| n IH]; intros from; simpl; auto. Qed.


Section TransportClaims.

Variable config : Config.
Variable network : nat -> Response.
Variables (url : string) (verb : Method) (payload : Payload).

Let k := maxRetry (appSettings config).
Let run := requestApi config network url verb payload.

(** Against a network that never answers 200, a call at counter [r]
    issues the attempts [r] to [k] and exits with code 1. *)
Lemma requestApi_exhausts r st :
  (forall n, statusCode (network n) <> 200) ->
  r <= k ->
  exists st',
    run r st = Exited 1 st'
    /\ sent st' = sent st ++ attempts url verb payload r (Z.to_nat (k - r) + 1).
Proof.
  intros Hnet.
  apply (requestApi_induction config network url verb payload
           (fun r st o =>
              r <= k ->
              exists st',
                o = Exited 1 st'
                /\ sent st' = sent st
                     ++ attempts url verb payload r (Z.to_nat (k - r) + 1)));
    clear r st; intros r st.
  - intros E. destruct (Hnet _ E).
  - intros _ L IH _. destruct IH as (st' & -> & Es); [subst k; lia | ].
    exists st'. split; [reflexivity | ].
    rewrite Es. simpl sent. rewrite <- app_assoc. f_equal.
    replace (Z.to_nat (k - r) + 1)%nat
      with (S (Z.to_nat (k - (r + 1)) + 1)) by (subst k; lia).
    reflexivity.
  - intros _ L1 L2. eexists. split; [reflexivity | ].
    replace (Z.to_nat (k - r)) with 0%nat by (subst k; lia).
    reflexivity.
Qed.


End TransportClaims.


(** ** The client *)
Section ClientFacts.

Variable config : Config.
Variable network : nat -> Response.
Variable JSON_stringify : BookSlotResponse -> string.

Lemma existBookingOf_response res :
  response (existBookingOf config res)
  = filter (fun booking =>
              match typeId (personalInfo config) with
              | Some t => ServiceTypeId booking =? t
              | None => false
              end) res.
Proof. unfold existBookingOf. destruct (0 <? _); reflexivity. Qed.

Lemma existBookingOf_exist res :
  exist (existBookingOf config res) = true
  <-> response (existBookingOf config res) <> [].
Proof.
  unfold existBookingOf.
  destruct (0 <? Z.of_nat (List.length (filter _ res))) eqn:E; simpl.
  - apply length_pos_nonempty in E. tauto.
  - split; [discriminate | ]. intros H. apply length_pos_nonempty in H.
    congruence.
Qed.

Lemma booking_Some_nonempty dates slot :
  booking config dates = Some slot -> dates <> [].
Proof. intros H ->. discriminate. Qed.

(** What [getLocationDates] does once the transport has returned a
    list of dates among which a candidate is found. *)
Lemma getLocationDates_candidate location st res st1 dates slot :
  requestApi config network "/api/AvailableLocationDates" POST
    (datesRequestBody config location) 0 st = Returned res st1 ->
  bodyJson res = JsonLocationDates dates ->
  booking config (AvailableDates config dates) = Some slot ->
  getLocationDates config network location st =
  let st2 :=
    setPaused true
      (addLog Info
         (Name location ++ " is available on " ++ FormattedStartDateTime slot
            ++ "! Booking appointment...") st1) in
  if negb (cancelIfExist (appSettings config)) && existBooking_exist st1
  then Exited 0
         (addLog Warn
            "Cancel existing appointment is disabled. Please cancel your existing appointment manually."
            st2)
  else Returned true st2.
Proof.
  intros R J B. unfold getLocationDates, bind.
  rewrite R, J.
  pose proof (booking_Some_nonempty _ _ B) as Hne.
  apply length_pos_nonempty in Hne.
  replace (negb (Z.of_nat (List.length (AvailableDates config dates)) =? 0))
    with true
    by (apply Z.ltb_lt in Hne; symmetry; apply negb_true_iff, Z.eqb_neq; lia).
  rewrite B. cbv zeta.
  unfold log.info, log.warn, queue.pause, modify, get, when, existBooking_exist.
  simpl.
  destruct (isPaused st1) eqn:P; simpl;
    destruct (negb (cancelIfExist (appSettings config))); simpl;
    destruct (existBooking st1) as [eb | ]; simpl;
    try destruct (exist eb); simpl;
    unfold setPaused, addLog; simpl; rewrite ?P; reflexivity.
Qed.

(** Whatever the network answers, [getLocationDates] sends requests
    to the dates endpoint only and leaves the hold flag as it is. *)
Lemma getLocationDates_never_holds location st :
  let st' := finalState (getLocationDates config network location st) in
  isHolded st' = isHolded st
  /\ exists reqs,
       sent st' = sent st ++ reqs
       /\ Forall (fun q => path q = "/api/AvailableLocationDates") reqs.
Proof.
  pose proof (requestApi_frame config network "/api/AvailableLocationDates"
                POST (datesRequestBody config location) 0 st) as F.
  cbv zeta in F |- *. unfold getLocationDates, bind.
  destruct (requestApi config network "/api/AvailableLocationDates" POST _ 0 st)
    as [res st1 | code st1 | r st1]; simpl in F |- *;
    destruct F as (_ & _ & Eh & _ & Es & _); try (split; assumption).
  destruct (bodyJson res); simpl; try (split; assumption).
  destruct (negb (Z.of_nat (List.length _) =? 0)); simpl;
    [ | split; assumption].
  destruct (booking config _) as [slot | ]; simpl; [ | split; assumption].
  unfold log.info, log.warn, queue.pause, modify, get, when, ret, exit.
  destruct (isPaused st1); simpl;
    destruct (negb (cancelIfExist (appSettings config)) && _); simpl;
    split; assumption.
Qed.

(** The in-flight guard of [holdSlot]: with the flag set the call
    returns at once, the state untouched. *)
Lemma holdSlot_in_flight_noop booking location st :
  isHolded st = true ->
  holdSlot config network JSON_stringify booking location st = Returned tt st.
Proof. intros H. unfold holdSlot, bind, get. rewrite H. reflexivity. Qed.

(** The same for [bookSlot] and the booked flag. *)
Lemma bookSlot_booked_noop booking location st :
  isBooked st = true ->
  bookSlot config network JSON_stringify booking location st = Returned tt st.
Proof. intros H. unfold bookSlot, bind, get. rewrite H. reflexivity. Qed.

End ClientFacts.

(** ** Claims on the existing-booking guard and on the booking steps *)
Section ClientClaims.

Variable config : Config.
Variable network : nat -> Response.
Variable JSON_stringify : BookSlotResponse -> string.

(** C10. When the transport returns the API's booking list,
    [checkExistBooking] returns, as the bookings field, the entries of
    that list, in order, whose ServiceTypeId equals the configured
    typeId, and exists = true iff that filtered list is non-empty. *)
Theorem checkExistBooking_filters st res st' bookings :
  requestApi config network "/api/Booking" POST
    (existBookingRequestBody config) 0 st
    = Returned res st' ->
  bodyJson res = JsonExistBooking bookings ->
  exists eb,
    checkExistBooking config network st = Returned eb st'
    /\ (exists keep,
           response eb = filter keep bookings
           /\ forall b, keep b = true
                        <-> typeId (personalInfo config) = Some (ServiceTypeId b))
    /\ (forall b, In b (response eb)
                  <-> In b bookings
                      /\ typeId (personalInfo config) = Some (ServiceTypeId b))
    /\ (exist eb = true <-> response eb <> []).
Proof.
  intros R J. exists (existBookingOf config bookings).
  assert (forall b,
             match typeId (personalInfo config) with
             | Some t => ServiceTypeId b =? t
             | None => false
             end = true
             <-> typeId (personalInfo config) = Some (ServiceTypeId b)) as K.
  { intros b. destruct (typeId (personalInfo config)) as [t | ].
    - rewrite Z.eqb_eq. split; [intros -> | intros [= ->]]; reflexivity.
    - split; discriminate. }
  split; [ | split; [ | split]].
  - unfold checkExistBooking, bind. rewrite R, J. reflexivity.
  - eexists. split; [apply existBookingOf_response | exact K].
  - intros b. rewrite existBookingOf_response, filter_In, K. reflexivity.
  - apply existBookingOf_exist.
Qed.

(** C3, amended. With an existing booking and cancelIfExist = false,
    when a candidate is found [getLocationDates] logs a warning and
    the process exits with code 0; no request goes to the hold
    endpoint and the hold flag is left as it was. *)
Theorem existing_booking_exits_before_hold location st res st1 dates slot :
  requestApi config network "/api/AvailableLocationDates" POST
    (datesRequestBody config location) 0 st = Returned res st1 ->
  bodyJson res = JsonLocationDates dates ->
  booking config (AvailableDates config dates) = Some slot ->
  cancelIfExist (appSettings config) = false ->
  existBooking_exist st = true ->
  exists st',
    getLocationDates config network location st = Exited 0 st'
    /\ sent st' = sent st1
    /\ (forall q, In q (sent st') -> path q = "/api/HoldSlot" -> In q (sent st))
    /\ isHolded st' = isHolded st
    /\ exists lines,
         logged st' = lines ++
           [{| level := Warn;
               message := "Cancel existing appointment is disabled. Please cancel your existing appointment manually." |}].
Proof.
  intros R J B C E.
  pose proof (requestApi_frame config network "/api/AvailableLocationDates"
                POST (datesRequestBody config location) 0 st) as F.
  rewrite R in F. cbv zeta in F. simpl in F.
  destruct F as (Eb & _ & Eh & _ & (reqs & Es & Fp) & _).
  rewrite (getLocationDates_candidate config network location st res st1
             dates slot R J B).
  cbv zeta. rewrite C. unfold existBooking_exist in *. rewrite Eb, E. simpl.
  eexists. split; [reflexivity | ]. simpl.
  split; [reflexivity | ]. split; [ | split; [exact Eh | ]].
  - intros q Hq Hp. rewrite Es in Hq. apply in_app_or in Hq as [Hq | Hq].
    + exact Hq.
    + rewrite Forall_forall in Fp. apply Fp in Hq. rewrite Hq in Hp.
      discriminate.
  - eexists. reflexivity.
Qed.

(** When the transport returns dates of which one passes the date test
    and none keeps a slot, line 208 reads a property of [undefined]. *)
Lemma getLocationDates_TypeError location st res st1 dates :
  requestApi config network "/api/AvailableLocationDates" POST
    (datesRequestBody config location) 0 st = Returned res st1 ->
  bodyJson res = JsonLocationDates dates ->
  AvailableDates config dates <> [] ->
  (forall date, In date (AvailableDates config dates) ->
                filteredTimeSlots config date = []) ->
  getLocationDates config network location st = Rejected TypeError st1.
Proof.
  intros R J Hne Hall. unfold getLocationDates, bind.
  rewrite R, J.
  destruct (booking config (AvailableDates config dates)) as [slot | ] eqn:B.
  - destruct (proj1 (booking_defined_iff config _) (ex_intro _ slot B))
      as (date & Hin & Hs).
    destruct (Hs (Hall date Hin)).
  - apply length_pos_nonempty, Z.ltb_lt in Hne.
    replace (negb (Z.of_nat (List.length (AvailableDates config dates)) =? 0))
      with true by (symmetry; apply negb_true_iff, Z.eqb_neq; lia).
    reflexivity.
Qed.

(** The state [bookSlot] leaves when the booking request returns a
    response whose Booking is null. *)
Lemma bookSlot_null_booking booking location st st1 responseId st2 res st3 info :
  isBooked st = false ->
  cancelExisting config network (addLog Info "Booking appointment..." st)
    = Returned tt st1 ->
  getResponseId config network st1 = Returned responseId st2 ->
  requestApi config network "/api/NewBooking" POST
    (NewBookingPayload (newBookingRequestBody config booking location responseId))
    0 st2 = Returned res st3 ->
  bodyJson res = JsonBookSlot info ->
  Booking info = None ->
  bookSlot config network JSON_stringify booking location st
  = Returned tt
      (setHolded false
         (addLog Error (JSON_stringify info)
            (addLog Error "Failed to book appointment." (setPaused false st3)))).
Proof.
  intros Hb Hc Hr Hn Hj Hnull.
  pose proof (requestApi_Returned_200 _ _ _ _ _ _ _ _ _ Hn) as H200.
  unfold bookSlot, bind, get. rewrite Hb.
  unfold log.info at 1. unfold modify at 1. rewrite Hc, Hr. cbv zeta.
  rewrite Hn, H200, Hj, Hnull. simpl.
  unfold when, queue.start, log.error, modify, ret.
  destruct (isPaused st3) eqn:P; simpl; [reflexivity | ].
  unfold setHolded, addLog, setPaused. simpl. rewrite P. reflexivity.
Qed.

(** C9. When the booking request returns a response of status 200
    whose Booking is null, [bookSlot] logs the error, clears the hold
    flag, leaves the queue started, sends nothing more, and returns:
    the process does not exit. *)
Theorem book_null_returns_to_polling
    booking location st st1 responseId st2 res st3 info :
  isBooked st = false ->
  cancelExisting config network (addLog Info "Booking appointment..." st)
    = Returned tt st1 ->
  getResponseId config network st1 = Returned responseId st2 ->
  requestApi config network "/api/NewBooking" POST
    (NewBookingPayload (newBookingRequestBody config booking location responseId))
    0 st2 = Returned res st3 ->
  bodyJson res = JsonBookSlot info ->
  Booking info = None ->
  statusCode res = 200
  /\ exists st',
       bookSlot config network JSON_stringify booking location st
         = Returned tt st'
       /\ isHolded st' = false
       /\ isPaused st' = false
       /\ sent st' = sent st3
       /\ logged st' = logged st3 ++
            [{| level := Error; message := "Failed to book appointment." |};
             {| level := Error; message := JSON_stringify info |}].
Proof.
  intros Hb Hc Hr Hn Hj Hnull.
  split; [exact (requestApi_Returned_200 _ _ _ _ _ _ _ _ _ Hn) | ].
  eexists. split;
    [exact (bookSlot_null_booking booking location st st1 responseId st2
              res st3 info Hb Hc Hr Hn Hj Hnull) | ].
  simpl. rewrite <- app_assoc. repeat split.
Qed.

(** The same seen from [holdSlot], after a hold the API reports
    successful. *)
Lemma holdSlot_then_null_booking
    booking location st resH stH held st1 responseId st2 res st3 info :
  isHolded st = false ->
  requestApi config network "/api/HoldSlot" POST
    (HoldSlotPayload (dob (personalInfo config)) (firstName (personalInfo config))
       (lastName (personalInfo config)) (lastFourSSN (personalInfo config))
       (SlotId booking)) 0 st = Returned resH stH ->
  bodyJson resH = JsonHoldSlot held ->
  SlotHeldSuccessfully held = true ->
  let stHeld :=
    setHolded true (addLog Info "Appointment slot held successfully." stH) in
  isBooked stHeld = false ->
  cancelExisting config network (addLog Info "Booking appointment..." stHeld)
    = Returned tt st1 ->
  getResponseId config network st1 = Returned responseId st2 ->
  requestApi config network "/api/NewBooking" POST
    (NewBookingPayload (newBookingRequestBody config booking location responseId))
    0 st2 = Returned res st3 ->
  bodyJson res = JsonBookSlot info ->
  Booking info = None ->
  exists st',
    holdSlot config network JSON_stringify booking location st = Returned tt st'
    /\ isHolded st' = false
    /\ isPaused st' = false.
Proof.
  intros Hh HrH HjH Hs stHeld Hb Hc Hr Hn Hj Hnull.
  eexists. split.
  - unfold holdSlot, bind, get. rewrite Hh, HrH, HjH, Hs. simpl.
    exact (bookSlot_null_booking booking location stHeld st1 responseId st2
             res st3 info Hb Hc Hr Hn Hj Hnull).
  - split; reflexivity.
Qed.

End ClientClaims.

Lemma checkExistBooking_filters_witness :
  requestApi Sample.windowed Scenario.bookingsNetwork "/api/Booking" POST
    (existBookingRequestBody Sample.windowed) 0 (Sample.idle None)
  = Returned (Scenario.bookingsNetwork 0)
      (issued "/api/Booking" POST (existBookingRequestBody Sample.windowed) 0
         (Sample.idle None))
  /\ bodyJson (Scenario.bookingsNetwork 0)
     = JsonExistBooking [Scenario.otherService; Sample.booked]
  /\ exists eb st',
       checkExistBooking Sample.windowed Scenario.bookingsNetwork (Sample.idle None)
       = Returned eb st'
       /\ (forall b, In b (response eb)
                     <-> In b [Scenario.otherService; Sample.booked]
                         /\ Some 71 = Some (ServiceTypeId b))
       /\ (exist eb = true <-> response eb <> []).
Proof.
  assert (requestApi Sample.windowed Scenario.bookingsNetwork "/api/Booking" POST
            (existBookingRequestBody Sample.windowed) 0 (Sample.idle None)
          = Returned (Scenario.bookingsNetwork 0)
              (issued "/api/Booking" POST
                 (existBookingRequestBody Sample.windowed) 0 (Sample.idle None)))
    as R by reflexivity.
  assert (bodyJson (Scenario.bookingsNetwork 0)
          = JsonExistBooking [Scenario.otherService; Sample.booked])
    as J by reflexivity.
  split; [exact R | split; [exact J | ]].
  destruct (checkExistBooking_filters Sample.windowed Scenario.bookingsNetwork
              _ _ _ _ R J) as (eb & E & _ & M & X).
  exists eb. eexists. split; [exact E | split; [exact M | exact X]].
Defined.

Lemma existing_booking_exits_before_hold_witness :
  let dates := [Sample.date 1 [7; 10; 14]] in
  let network := Scenario.datesNetwork dates in
  let st1 :=
    issued "/api/AvailableLocationDates" POST
      (datesRequestBody Scenario.keepExisting Sample.office) 0 Scenario.hasBooking in
  requestApi Scenario.keepExisting network "/api/AvailableLocationDates" POST
    (datesRequestBody Scenario.keepExisting Sample.office) 0 Scenario.hasBooking
  = Returned (network 0%nat) st1
  /\ bodyJson (network 0%nat) = JsonLocationDates dates
  /\ booking Scenario.keepExisting (AvailableDates Scenario.keepExisting dates)
     = Some (Sample.slot 1 10)
  /\ cancelIfExist (appSettings Scenario.keepExisting) = false
  /\ existBooking_exist Scenario.hasBooking = true
  /\ exists st',
       getLocationDates Scenario.keepExisting network Sample.office
         Scenario.hasBooking = Exited 0 st'
       /\ sent st' = sent st1.
Proof.
  intros dates network st1.
  assert (requestApi Scenario.keepExisting network "/api/AvailableLocationDates"
            POST (datesRequestBody Scenario.keepExisting Sample.office) 0
            Scenario.hasBooking = Returned (network 0%nat) st1)
    as R by reflexivity.
  assert (bodyJson (network 0%nat) = JsonLocationDates dates) as J by reflexivity.
  assert (booking Scenario.keepExisting
            (AvailableDates Scenario.keepExisting dates)
          = Some (Sample.slot 1 10)) as B by reflexivity.
  assert (cancelIfExist (appSettings Scenario.keepExisting) = false)
    as C by reflexivity.
  assert (existBooking_exist Scenario.hasBooking = true) as E by reflexivity.
  split; [exact R | ]. split; [exact J | ]. split; [exact B | ].
  split; [exact C | ]. split; [exact E | ].
  destruct (existing_booking_exits_before_hold Scenario.keepExisting network
              Sample.office _ _ _ _ _ R J B C E) as (st' & X & S & _).
  exists st'. split; [exact X | exact S].
Defined.

(** C3 fails as stated: with an existing booking, cancelIfExist = false
    and a candidate at 10 o'clock, the process exits with code 0. *)
Lemma policy_exit_code_is_zero :
  ~ policy_exit_nonzero_claim Scenario.keepExisting
      (Scenario.datesNetwork [Sample.date 1 [7; 10; 14]])
      Sample.office Scenario.hasBooking.
Proof.
  intros (code & st' & E & N).
  vm_compute in E. injection E as <- _. apply N. reflexivity.
Qed.

Lemma book_null_returns_to_polling_witness :
  let st1 := addLog Info "Booking appointment..." Scenario.holding in
  let st2 :=
    issued "/api/Eligibility" POST
      (EligibilityPayload "Jane" "Doe" "01/31/2000" "6789" "") 0 st1 in
  let st3 :=
    issued "/api/NewBooking" POST
      (NewBookingPayload
         (newBookingRequestBody Sample.windowed (Sample.slot 1 10) Sample.office 5))
      0 st2 in
  isBooked Scenario.holding = false
  /\ cancelExisting Sample.windowed Scenario.nullBookingNetwork st1
     = Returned tt st1
  /\ getResponseId Sample.windowed Scenario.nullBookingNetwork st1
     = Returned 5 st2
  /\ requestApi Sample.windowed Scenario.nullBookingNetwork "/api/NewBooking" POST
       (NewBookingPayload
          (newBookingRequestBody Sample.windowed (Sample.slot 1 10)
             Sample.office 5)) 0 st2
     = Returned (Scenario.nullBookingNetwork 1) st3
  /\ bodyJson (Scenario.nullBookingNetwork 1)
     = JsonBookSlot {| Booking := None |}
  /\ Booking {| Booking := None |} = None
  /\ exists st',
       bookSlot Sample.windowed Scenario.nullBookingNetwork Scenario.stringify
         (Sample.slot 1 10) Sample.office Scenario.holding
       = Returned tt st'
       /\ isHolded st' = false
       /\ isPaused st' = false.
Proof.
  intros st1 st2 st3.
  assert (isBooked Scenario.holding = false) as Hb by reflexivity.
  assert (cancelExisting Sample.windowed Scenario.nullBookingNetwork st1
          = Returned tt st1) as Hc by reflexivity.
  assert (getResponseId Sample.windowed Scenario.nullBookingNetwork st1
          = Returned 5 st2) as Hr by reflexivity.
  assert (requestApi Sample.windowed Scenario.nullBookingNetwork
            "/api/NewBooking" POST
            (NewBookingPayload
               (newBookingRequestBody Sample.windowed (Sample.slot 1 10)
                  Sample.office 5)) 0 st2
          = Returned (Scenario.nullBookingNetwork 1) st3) as Hn by reflexivity.
  assert (bodyJson (Scenario.nullBookingNetwork 1)
          = JsonBookSlot {| Booking := None |}) as Hj by reflexivity.
  assert (Booking {| Booking := None |} = None) as Hnull by reflexivity.
  split; [exact Hb | ]. split; [exact Hc | ]. split; [exact Hr | ].
  split; [exact Hn | ]. split; [exact Hj | ]. split; [exact Hnull | ].
  destruct (book_null_returns_to_polling Sample.windowed
              Scenario.nullBookingNetwork Scenario.stringify
              (Sample.slot 1 10) Sample.office _ _ _ _ _ _ _
              Hb Hc Hr Hn Hj Hnull) as (_ & st' & E & H & P & _).
  exists st'. split; [exact E | split; [exact H | exact P]].
Defined.

(** C1, what the code does. The call of [holdSlot] being commented out,
    a poll that finds the candidate of 10 o'clock, with no existing
    booking to stop it, logs that it is booking, pauses the queue and
    resolves to true: the one request it has sent is the query for the
    dates, none goes to the hold endpoint, and the hold flag stays
    clear. *)
Theorem candidate_found_hold_not_requested :
  booking Sample.windowed
    (AvailableDates Sample.windowed [Sample.date 1 [7; 10; 14]])
  = Some (Sample.slot 1 10)
  /\ exists st',
       getLocationDates Sample.windowed
         (Scenario.datesNetwork [Sample.date 1 [7; 10; 14]])
         Sample.office (Sample.idle None)
       = Returned true st'
       /\ sent st'
          = [{| method := POST; path := "/api/AvailableLocationDates";
                body := datesRequestBody Sample.windowed Sample.office;
                attempt := 0 |}]
       /\ Forall (fun q => path q <> "/api/HoldSlot") (sent st')
       /\ isHolded st' = false
       /\ isPaused st' = true
       /\ logged st'
          = [{| level := Info;
                message := "Austin North is available on day 1, 10:00! Booking appointment..." |}].
Proof.
  split; [reflexivity | ].
  evaluate_run.
  eexists. split; [reflexivity | ]. simpl.
  split; [reflexivity | ].
  split; [repeat constructor; discriminate | ].
  repeat split.
Qed.

(** C5. The selection at line 208 is defined only when some date keeps
    a slot. On a non-empty date list whose slots, at 7 and 14 o'clock,
    all fall outside the hour window 8 to 12, the list of filtered dates
    is empty, its first element is undefined and [getLocationDates] ends
    in a TypeError; and for every configuration and date list the
    selection yields a slot iff some date of the list has a non-empty
    filtered slot list. *)
Theorem booking_defined_only_with_surviving_slot :
  ([Sample.date 1 [7; 14]] <> []
   /\ Forall (fun date => filteredTimeSlots Sample.windowed date = [])
             [Sample.date 1 [7; 14]]
   /\ AvailableDates Sample.windowed [Sample.date 1 [7; 14]]
      = [Sample.date 1 [7; 14]]
   /\ filteredAvailabilityDates Sample.windowed
        (AvailableDates Sample.windowed [Sample.date 1 [7; 14]]) = []
   /\ booking Sample.windowed
        (AvailableDates Sample.windowed [Sample.date 1 [7; 14]]) = None
   /\ exists st',
        getLocationDates Sample.windowed
          (Scenario.datesNetwork [Sample.date 1 [7; 14]])
          Sample.office (Sample.idle None)
        = Rejected TypeError st')
  /\ (forall config dates,
         (exists slot, booking config dates = Some slot)
         <-> exists date, In date dates /\ filteredTimeSlots config date <> []).
Proof.
  split.
  - split; [discriminate | ].
    split; [repeat constructor | ].
    split; [reflexivity | ].
    split; [reflexivity | ].
    split; [reflexivity | ].
    evaluate_run. eexists. reflexivity.
  - intros config dates. apply booking_defined_iff.
Qed.

(** * Further properties *)

(** ** The list of locations *)
Section SortFacts.

Context {A : Type}.
Variable compareFn : A -> A -> Q.

Lemma insertSorted_Permutation x l :
  Permutation (insertSorted compareFn x l) (x :: l).
Proof.
  induction l as [| y l IH]; simpl; [reflexivity | ].
  destruct (Qle_bool (compareFn x y) 0); [reflexivity | ].
  rewrite IH. apply perm_swap.
Qed.

Lemma sort_Permutation l : Permutation (sort compareFn l) l.
Proof.
  induction l as [| x l IH]; simpl; [reflexivity | ].
  rewrite insertSorted_Permutation. constructor. exact IH.
Qed.

Lemma sort_In l z : In z (sort compareFn l) <-> In z l.
Proof.
  split; apply Permutation_in;
    [apply sort_Permutation | symmetry; apply sort_Permutation].
Qed.

End SortFacts.

Section LocationFacts.

Let byDistance := fun a b : AvailableLocation => (Distance a - Distance b)%Q.

Lemma byDistance_le a b :
  Qle_bool (byDistance a b) 0 = true <-> nearerOrEqual a b.
Proof.
  unfold byDistance, nearerOrEqual. rewrite Qle_bool_iff. split; intros H; lra.
Qed.

Lemma nearerOrEqual_trans a b c :
  nearerOrEqual a b -> nearerOrEqual b c -> nearerOrEqual a c.
Proof. unfold nearerOrEqual. intros. lra. Qed.

Lemma insertSorted_sorted x l :
  StronglySorted nearerOrEqual l ->
  StronglySorted nearerOrEqual (insertSorted byDistance x l).
Proof.
  induction l as [| y l IH]; intros S; simpl.
  - repeat constructor.
  - destruct (Qle_bool (byDistance x y) 0) eqn:E.
    + apply byDistance_le in E. constructor; [exact S | ].
      constructor; [exact E | ].
      apply StronglySorted_inv in S as [_ F].
      rewrite Forall_forall in F |- *. intros z Hz.
      exact (nearerOrEqual_trans _ _ _ E (F z Hz)).
    + assert (nearerOrEqual y x) as Hyx.
      { unfold nearerOrEqual.
        destruct (Qlt_le_dec (Distance x) (Distance y)) as [L | L];
          [ | exact L].
        assert (Qle_bool (byDistance x y) 0 = true) as C
          by (apply byDistance_le; unfold nearerOrEqual; lra).
        congruence. }
      apply StronglySorted_inv in S as [S F].
      constructor; [exact (IH S) | ].
      rewrite Forall_forall in F |- *. intros z Hz.
      apply (Permutation_in _ (insertSorted_Permutation byDistance x l)) in Hz.
      destruct Hz as [<- | Hz]; [exact Hyx | exact (F z Hz)].
Qed.

Lemma sort_sorted l : StronglySorted nearerOrEqual (sort byDistance l).
Proof.
  induction l as [| x l IH]; simpl; [constructor | ].
  apply insertSorted_sorted, IH.
Qed.

Lemma findIndex_lower {A} (test : A -> bool) l : -1 <= findIndex test l.
Proof.
  induction l as [| x l IH]; simpl; [lia | ].
  destruct (test x); [lia | ]. destruct (Z.ltb_spec (findIndex test l) 0); lia.
Qed.

(** With no hit in [pre] and a hit at [x], the index found is the
    length of [pre]. *)
Lemma findIndex_first {A} (test : A -> bool) pre x post :
  existsb test pre = false -> test x = true ->
  findIndex test (pre ++ x :: post) = Z.of_nat (List.length pre).
Proof.
  induction pre as [| y pre IH]; simpl; intros N T.
  - rewrite T. reflexivity.
  - apply orb_false_iff in N as [Ny N]. rewrite Ny, (IH N T).
    destruct (Z.ltb_spec (Z.of_nat (List.length pre)) 0); lia.
Qed.

(** With a hit in [pre], the index found is below the length of
    [pre]. *)
Lemma findIndex_earlier {A} (test : A -> bool) pre rest :
  existsb test pre = true ->
  findIndex test (pre ++ rest) < Z.of_nat (List.length pre).
Proof.
  induction pre as [| y pre IH]; simpl; intros E; [discriminate | ].
  destruct (test y); [lia | ]. simpl in E. specialize (IH E).
  destruct (Z.ltb_spec (findIndex test (pre ++ rest)) 0); lia.
Qed.

Lemma existsb_sameId x pre :
  existsb (fun obj => Id (site obj) =? Id (site x)) pre
  = existsb (Z.eqb (locationId x)) (map locationId pre).
Proof.
  induction pre as [| y pre IH]; simpl; [reflexivity | ].
  rewrite IH. unfold locationId. rewrite (Z.eqb_sym (Id (site y))). reflexivity.
Qed.

(** The filter of line 122 keeps the first occurrence of every [Id]. *)
Lemma filterFrom_firstOccurrences l pre :
  filterFrom
    (fun elem index =>
       findIndex (fun obj => Id (site obj) =? Id (site elem)) (pre ++ l) =? index)
    (Z.of_nat (List.length pre)) l
  = firstOccurrences (map locationId pre) l.
Proof.
  revert pre. induction l as [| x l IH]; intros pre; simpl; [reflexivity | ].
  specialize (IH (pre ++ [x])).
  rewrite <- app_assoc, length_app, map_app in IH. simpl in IH.
  replace (Z.of_nat (List.length pre + 1)) with (Z.of_nat (List.length pre) + 1)
    in IH by lia.
  rewrite <- existsb_sameId.
  destruct (existsb (fun obj => Id (site obj) =? Id (site x)) pre) eqn:E.
  - pose proof (findIndex_earlier _ pre (x :: l) E) as L.
    destruct (Z.eqb_spec
                (findIndex (fun obj => Id (site obj) =? Id (site x))
                   (pre ++ x :: l))
                (Z.of_nat (List.length pre))); [lia | exact IH].
  - rewrite (findIndex_first _ pre x l E (Z.eqb_refl _)), Z.eqb_refl.
    f_equal. exact IH.
Qed.

Lemma existsb_eqb_In x seen : existsb (Z.eqb x) seen = true <-> In x seen.
Proof.
  rewrite existsb_exists. split.
  - intros (y & Hy & E). apply Z.eqb_eq in E. subst. exact Hy.
  - intros H. exists x. split; [exact H | apply Z.eqb_refl].
Qed.

Lemma firstOccurrences_In seen l x :
  In x (firstOccurrences seen l) -> In x l /\ ~ In (locationId x) seen.
Proof.
  revert seen. induction l as [| a l IH]; intros seen; simpl; [tauto | ].
  destruct (existsb (Z.eqb (locationId a)) seen) eqn:E.
  - intros H. destruct (IH _ H) as [Hin Hn]. split; [auto | ].
    intros C. apply Hn, in_or_app. auto.
  - intros [<- | H].
    + split; [auto | ]. intros C. apply existsb_eqb_In in C. congruence.
    + destruct (IH _ H) as [Hin Hn]. split; [auto | ].
      intros C. apply Hn, in_or_app. auto.
Qed.

Lemma firstOccurrences_NoDup seen l :
  NoDup (map locationId (firstOccurrences seen l)).
Proof.
  revert seen. induction l as [| a l IH]; intros seen; simpl; [constructor | ].
  destruct (existsb (Z.eqb (locationId a)) seen); [apply IH | ].
  simpl. constructor; [ | apply IH].
  intros C. apply in_map_iff in C as (x & Ex & Hx).
  apply firstOccurrences_In in Hx as [_ Hn]. apply Hn, in_or_app.
  right. left. symmetry. exact Ex.
Qed.

Lemma firstOccurrences_sorted (R : AvailableLocation -> AvailableLocation -> Prop)
    seen l :
  StronglySorted R l -> StronglySorted R (firstOccurrences seen l).
Proof.
  revert seen. induction l as [| a l IH]; intros seen S; simpl; [constructor | ].
  apply StronglySorted_inv in S as [S F].
  destruct (existsb (Z.eqb (locationId a)) seen); [apply IH, S | ].
  constructor; [apply IH, S | ].
  rewrite Forall_forall in F |- *. intros x Hx.
  apply firstOccurrences_In in Hx as [Hx _]. exact (F x Hx).
Qed.

Lemma firstOccurrences_nearest seen l :
  StronglySorted nearerOrEqual l ->
  forall x, In x l ->
    In (locationId x) seen
    \/ exists x', In x' (firstOccurrences seen l)
                  /\ locationId x' = locationId x /\ nearerOrEqual x' x.
Proof.
  revert seen. induction l as [| a l IH]; intros seen S x Hx; [destruct Hx | ].
  apply StronglySorted_inv in S as [S F]. simpl.
  destruct (existsb (Z.eqb (locationId a)) seen) eqn:E.
  - apply existsb_eqb_In in E. destruct Hx as [<- | Hx]; [auto | ].
    destruct (IH (seen ++ [locationId a]) S x Hx) as [C | C]; [ | auto].
    apply in_app_or in C as [C | [<- | []]]; auto.
  - destruct Hx as [<- | Hx].
    + right. exists a. split; [left; reflexivity | ].
      split; [reflexivity | unfold nearerOrEqual; lra].
    + destruct (IH (seen ++ [locationId a]) S x Hx) as [C | (x' & H1 & H2 & H3)].
      * apply in_app_or in C as [C | [C | []]]; [auto | ].
        right. exists a. split; [left; reflexivity | ].
        split; [exact C | ]. rewrite Forall_forall in F. exact (F x Hx).
      * right. exists x'. split; [right; exact H1 | auto].
Qed.

Lemma sortedUnique_firstOccurrences l :
  sortedUnique l = firstOccurrences [] (sort byDistance l).
Proof.
  unfold sortedUnique. cbv zeta.
  exact (filterFrom_firstOccurrences (sort byDistance l) []).
Qed.

End LocationFacts.

(** X1. The list [getAllLocationFromZipCodes] returns is in ascending
    order of distance, carries no [Id] twice, and holds only locations
    the API returned for one of the zip codes. *)
Theorem locations_sorted_and_unique
    (responses : list (string * list AvailableLocation)) :
  let result := getAllLocationFromZipCodes_value responses in
  StronglySorted nearerOrEqual result
  /\ NoDup (map locationId result)
  /\ Forall (fun el => In el (finalArray responses)) result.
Proof.
  unfold getAllLocationFromZipCodes_value. cbv zeta.
  rewrite sortedUnique_firstOccurrences.
  split; [apply firstOccurrences_sorted, sort_sorted | ].
  split; [apply firstOccurrences_NoDup | ].
  apply Forall_forall. intros el H.
  apply firstOccurrences_In in H as [H _]. apply sort_In in H. exact H.
Qed.

(** X2. No location is lost: every location the API returned for some
    zip code is in the list [getAllLocationFromZipCodes] returns under
    its [Id], and the entry kept for an [Id] is at most as far as every
    entry returned with that [Id]. *)
Theorem locations_keep_nearest_of_each_id
    (responses : list (string * list AvailableLocation)) :
  Forall
    (fun el =>
       exists kept,
         In kept (getAllLocationFromZipCodes_value responses)
         /\ locationId kept = locationId el
         /\ nearerOrEqual kept el)
    (finalArray responses).
Proof.
  apply Forall_forall. intros el H.
  unfold getAllLocationFromZipCodes_value. rewrite sortedUnique_firstOccurrences.
  destruct (firstOccurrences_nearest [] _ (sort_sorted (finalArray responses)) el)
    as [[] | C]; [ | exact C].
  apply sort_In. exact H.
Qed.

(** The three facts on the gathered list that the selection relies on. *)
Lemma gathered_locations (responses : list (string * list AvailableLocation)) :
  StronglySorted nearerOrEqual (getAllLocationFromZipCodes_value responses)
  /\ (forall el, In el (getAllLocationFromZipCodes_value responses) ->
                 In el (finalArray responses))
  /\ (forall el, In el (finalArray responses) ->
         exists kept,
           In kept (getAllLocationFromZipCodes_value responses)
           /\ nearerOrEqual kept el).
Proof.
  unfold getAllLocationFromZipCodes_value. rewrite sortedUnique_firstOccurrences.
  split; [apply firstOccurrences_sorted, sort_sorted | ]. split.
  - intros el H. apply firstOccurrences_In in H as [H _].
    apply sort_In in H. exact H.
  - intros el H.
    destruct (firstOccurrences_nearest [] _ (sort_sorted (finalArray responses)) el)
      as [[] | (kept & K & _ & L)]; [apply sort_In; exact H | ].
    exists kept. auto.
Qed.

(** ** The selection by distance *)
Section SelectionFacts.

Variable miles : Q.
Variable showNumber : Q -> string.

Lemma within_miles_spec el :
  negb (Qle_bool miles (Distance el)) = true <-> (Distance el < miles)%Q.
Proof.
  rewrite negb_true_iff. split.
  - intros H. destruct (Qlt_le_dec (Distance el) miles) as [L | L]; [exact L | ].
    apply Qle_bool_iff in L. congruence.
  - intros H. destruct (Qle_bool miles (Distance el)) eqn:E; [ | reflexivity].
    apply Qle_bool_iff in E. lra.
Qed.

Lemma none_within_miles response :
  (forall el, In el response -> (miles <= Distance el)%Q) ->
  filter (fun location => negb (Qle_bool miles (Distance location))) response = [].
Proof.
  intros H. destruct (filter _ response) as [| x l] eqn:F; [reflexivity | ].
  assert (In x (x :: l)) as Hx by (left; reflexivity).
  rewrite <- F in Hx. apply filter_In in Hx as [Hin Hx].
  apply within_miles_spec in Hx. specialize (H x Hin). lra.
Qed.

(** X3. When some location is nearer than [miles], the selection by
    distance keeps exactly the locations that are strictly nearer than
    [miles] (one at [miles] itself is left out), logs two lines, sends
    nothing and leaves the flags alone. *)
Theorem locations_within_miles response st :
  (exists el, In el response /\ (Distance el < miles)%Q) ->
  exists result st',
    requestAvailableLocation_byDistance miles showNumber response st
    = Returned result st'
    /\ (forall el, In el result <-> In el response /\ (Distance el < miles)%Q)
    /\ sent st' = sent st
    /\ sameFlags st st'
    /\ logged st' = logged st ++
         [{| level := Info;
             message := "Found " ++ showZ (Z.of_nat (List.length result))
                          ++ " locations that match your settings." |};
          {| level := Info;
             message := join ", " (map (fun el => Name (site el)) result) |}].
Proof.
  intros (el & Hin & Hlt).
  unfold requestAvailableLocation_byDistance. cbv zeta.
  set (result := filter (fun location => negb (Qle_bool miles (Distance location)))
                        response).
  assert (In el result) as Hr
    by (apply filter_In; split; [exact Hin | apply within_miles_spec, Hlt]).
  assert (result <> []) as Hne by (intros E; rewrite E in Hr; exact Hr).
  apply length_pos_nonempty, Z.ltb_lt in Hne.
  replace (Z.of_nat (List.length result) =? 0) with false
    by (symmetry; apply Z.eqb_neq; lia).
  eexists. eexists. split; [reflexivity | ].
  split.
  { intros x. unfold result. rewrite filter_In, within_miles_spec. reflexivity. }
  simpl. split; [reflexivity | ]. split; [repeat split | ].
  rewrite <- app_assoc. reflexivity.
Qed.

(** X4. When no location is nearer than [miles], the selection by
    distance stores nothing: on an empty list, reading [response[0]]
    raises a TypeError before anything is logged; otherwise the process
    logs the distance of the first location of the list and exits with
    code 0. *)
Theorem no_location_within_miles response st :
  (forall el, In el response -> (miles <= Distance el)%Q) ->
  requestAvailableLocation_byDistance miles showNumber response st
  = match response with
    | [] => Rejected TypeError st
    | nearest :: _ =>
        Exited 0
          (addLog Error
             ("No locations found. The nearest location is "
                ++ showNumber (Distance nearest)
                ++ " miles away. Please update your settings and try again.")
             st)
    end.
Proof.
  intros H. unfold requestAvailableLocation_byDistance. cbv zeta.
  rewrite (none_within_miles response H). simpl.
  destruct response; reflexivity.
Qed.

(** X5. After the gathering, the distance that message gives is the
    least one: when the API returned locations and none of them is
    nearer than [miles], the process exits with code 0 after logging the
    distance of a returned location that is at most as far as every
    returned location. *)
Theorem nearest_location_is_reported
    (responses : list (string * list AvailableLocation)) st :
  finalArray responses <> [] ->
  (forall el, In el (finalArray responses) -> (miles <= Distance el)%Q) ->
  exists nearest,
    In nearest (finalArray responses)
    /\ Forall (nearerOrEqual nearest) (finalArray responses)
    /\ requestAvailableLocation_byDistance miles showNumber
         (getAllLocationFromZipCodes_value responses) st
       = Exited 0
           (addLog Error
              ("No locations found. The nearest location is "
                 ++ showNumber (Distance nearest)
                 ++ " miles away. Please update your settings and try again.")
              st).
Proof.
  intros Hne Hfar.
  destruct (gathered_locations responses) as (S & Sub & Near).
  assert (forall el, In el (getAllLocationFromZipCodes_value responses) ->
                     (miles <= Distance el)%Q) as Hfar'
    by (intros el Hel; apply Hfar, Sub, Hel).
  unfold requestAvailableLocation_byDistance. cbv zeta.
  rewrite (none_within_miles _ Hfar'). simpl.
  destruct (getAllLocationFromZipCodes_value responses) as [| nearest rest].
  - exfalso. destruct (finalArray responses) as [| el l]; [congruence | ].
    destruct (Near el (or_introl eq_refl)) as (k & [] & _).
  - exists nearest. split; [apply Sub; left; reflexivity | ].
    split; [ | reflexivity].
    apply Forall_forall. intros el Hel.
    destruct (Near el Hel) as (k & [<- | Hk] & Hle); [exact Hle | ].
    apply StronglySorted_inv in S as [_ F]. rewrite Forall_forall in F.
    exact (nearerOrEqual_trans _ _ _ (F k Hk) Hle).
Qed.

End SelectionFacts.

(** ** The transport, whatever the network answers *)
Section TransportBounds.

Variable config : Config.
Variable network : nat -> Response.
Variables (url : string) (verb : Method) (payload : Payload).

Let k := maxRetry (appSettings config).
Let run := requestApi config network url verb payload.

(** With every request answered, as the network of the model does, a
    call returns a response of status 200 or exits with code 1. *)
Lemma requestApi_outcome r st :
  (exists res st', run r st = Returned res st' /\ statusCode res = 200)
  \/ (exists st', run r st = Exited 1 st').
Proof.
  apply (requestApi_induction config network url verb payload
           (fun r st o =>
              (exists res st', o = Returned res st' /\ statusCode res = 200)
              \/ (exists st', o = Exited 1 st')));
    clear r st; intros r st.
  - intros E. left. eexists. eexists. split; [reflexivity | exact E].
  - intros _ _ IH. exact IH.
  - intros _ _. right. eexists. reflexivity.
Qed.

Lemma requestApi_sameFlags r st : sameFlags st (finalState (run r st)).
Proof.
  destruct (requestApi_frame config network url verb payload r st)
    as (A & B & C & D & _).
  repeat split; assumption.
Qed.

(** X6. Whatever the network answers to the requests, the response
    that a call of [requestApi] returns has status 200 and the code it
    exits with is 1; it issues at least one request and at most
    max(maxRetry - retryTime, 0) + 1, all alike but for the counter,
    which goes up by one from [retryTime]; and it leaves the flags and
    the existing booking as they were.  Nothing is said of a call whose
    promise is rejected. *)
Theorem requestApi_requests_bounded (retryTime : Z) (st : State) :
  let st' := finalState (run retryTime st) in
  match run retryTime st with
  | Returned res _ => statusCode res = 200
  | Exited code _ => code = 1
  | Rejected _ _ => True
  end
  /\ (exists n,
        sent st' = sent st ++ attempts url verb payload retryTime n
        /\ (1 <= n <= Z.to_nat (k - retryTime) + 1)%nat)
  /\ sameFlags st st'.
Proof.
  cbv zeta. split; [ | split; [ | apply requestApi_sameFlags]].
  - destruct (requestApi_outcome retryTime st) as [(res & st' & E & S) | (st' & E)];
      rewrite E; [exact S | reflexivity].
  - apply (requestApi_induction config network url verb payload
             (fun r st o =>
                exists n,
                  sent (finalState o) = sent st ++ attempts url verb payload r n
                  /\ (1 <= n <= Z.to_nat (k - r) + 1)%nat));
      clear retryTime st; intros r st.
    + intros _. exists 1%nat. split; [reflexivity | lia].
    + intros _ L (n & Es & B). exists (S n). split.
      * rewrite Es. simpl sent. rewrite <- app_assoc. reflexivity.
      * subst k. lia.
    + intros _ _. exists 1%nat. split; [reflexivity | lia].
Qed.

(** X7. When the first [j] answers are failures, [j] being at most
    maxRetry, and the next one has status 200, [requestApi] returns
    that answer after [j] + 1 requests, with two lines logged for each
    failure, and the process goes on. *)
Theorem requestApi_succeeds_after_failures (j : nat) (st : State) :
  Z.of_nat j <= k ->
  (forall i, (i < j)%nat ->
             statusCode (network (List.length (sent st) + i)) <> 200) ->
  statusCode (network (List.length (sent st) + j)) = 200 ->
  exists st',
    run 0 st = Returned (network (List.length (sent st) + j)) st'
    /\ sent st' = sent st ++ attempts url verb payload 0 (S j)
    /\ List.length (logged st') = (List.length (logged st) + 2 * j)%nat.
Proof.
  assert (forall j r st,
             r + Z.of_nat j <= k ->
             (forall i, (i < j)%nat ->
                        statusCode (network (List.length (sent st) + i)) <> 200) ->
             statusCode (network (List.length (sent st) + j)) = 200 ->
             exists st',
               run r st = Returned (network (List.length (sent st) + j)) st'
               /\ sent st' = sent st ++ attempts url verb payload r (S j)
               /\ List.length (logged st') = (List.length (logged st) + 2 * j)%nat)
    as G.
  { clear j st. induction j as [| j IH]; intros r st Hk Hfail Hok;
      subst run; rewrite requestApi_step; cbv zeta.
    - rewrite Nat.add_0_r in Hok. rewrite Hok. simpl.
      rewrite Nat.add_0_r. eexists. split; [reflexivity | ].
      split; [reflexivity | simpl; lia].
    - pose proof (Hfail 0%nat ltac:(lia)) as F0. rewrite Nat.add_0_r in F0.
      apply Z.eqb_neq in F0. rewrite F0. simpl.
      fold k. destruct (Z.ltb_spec r k) as [L | L]; [ | lia].
      match goal with
      | |- exists st', requestApi _ _ _ _ _ _ ?s = _ /\ _ =>
          destruct (IH (r + 1) s) as (st' & E & Es & El)
      end.
      + lia.
      + intros i Hi. simpl sent. rewrite length_app. simpl.
        replace (List.length (sent st) + 1 + i)%nat
          with (List.length (sent st) + S i)%nat by lia.
        apply Hfail. lia.
      + simpl sent. rewrite length_app. simpl.
        replace (List.length (sent st) + 1 + j)%nat
          with (List.length (sent st) + S j)%nat by lia.
        exact Hok.
      + simpl sent in E, Es. rewrite length_app in E. simpl in E.
        replace (List.length (sent st) + 1 + j)%nat
          with (List.length (sent st) + S j)%nat in E by lia.
        exists st'. split; [exact E | ]. split.
        * rewrite Es, <- app_assoc. reflexivity.
        * rewrite El. simpl. rewrite !length_app. simpl. lia. }
  intros Hk Hfail Hok. apply (G j 0 st); [lia | exact Hfail | exact Hok].
Qed.

End TransportBounds.

(** ** One location, whatever the network answers *)
Section PollFacts.

Variable config : Config.
Variable network : nat -> Response.

(** How a call of [getLocationDates] can end, and what it leaves. *)
Lemma getLocationDates_cases location st :
  let o := getLocationDates config network location st in
  let st' := finalState o in
  existBooking st' = existBooking st
  /\ isBooked st' = isBooked st
  /\ isHolded st' = isHolded st
  /\ (exists reqs,
        sent st' = sent st ++ reqs /\ sentTo "/api/AvailableLocationDates" reqs)
  /\ match o with
     | Returned b _ => b = true /\ isPaused st' = true
     | Exited code _ =>
         (code = 1 /\ isPaused st' = isPaused st)
         \/ (code = 0 /\ isPaused st' = true
             /\ cancelIfExist (appSettings config) = false
             /\ existBooking_exist st = true)
     | Rejected _ _ => isPaused st' = isPaused st
     end.
Proof.
  pose proof (requestApi_frame config network "/api/AvailableLocationDates"
                POST (datesRequestBody config location) 0 st) as F.
  pose proof (requestApi_outcome config network "/api/AvailableLocationDates"
                POST (datesRequestBody config location) 0 st) as O.
  cbv zeta in F |- *. unfold getLocationDates, bind.
  destruct (requestApi config network "/api/AvailableLocationDates" POST _ 0 st)
    as [res st1 | code st1 | r st1]; simpl in F |- *;
    destruct F as (Eb & Ek & Eh & Ep & Es & _).
  2: { destruct O as [(? & ? & O & _) | (? & O)]; [discriminate | ].
       injection O as -> _. repeat split; auto. }
  2: { destruct O as [(? & ? & O & _) | (? & O)]; discriminate. }
  destruct (bodyJson res); simpl; try (repeat split; assumption).
  destruct (negb (Z.of_nat (List.length _) =? 0)); simpl;
    [ | repeat split; assumption].
  destruct (booking config _) as [slot | ]; simpl; [ | repeat split; assumption].
  unfold log.info, log.warn, queue.pause, modify, get, when, ret, exit,
    existBooking_exist.
  simpl. rewrite Eb.
  destruct (isPaused st1) eqn:P; simpl;
    destruct (cancelIfExist (appSettings config)); simpl;
    destruct (existBooking st) as [eb | ]; simpl;
    try destruct (exist eb); simpl;
    rewrite ?P; repeat split; auto;
    right; rewrite ?P; repeat split; auto.
Qed.

(** A paused queue starts nothing. *)
Lemma addAll_paused fns st :
  isPaused st = true -> addAll fns st = Returned tt st.
Proof. intros P. destruct fns; simpl; [reflexivity | rewrite P; reflexivity]. Qed.

Lemma addAll_app fns1 fns2 st :
  addAll (fns1 ++ fns2) st
  = match addAll fns1 st with
    | Returned _ st1 => addAll fns2 st1
    | Exited code st1 => Exited code st1
    | Rejected r st1 => Rejected r st1
    end.
Proof.
  revert st. induction fns1 as [| fn fns1 IH]; intros st; simpl; [reflexivity | ].
  destruct (isPaused st) eqn:P; [rewrite (addAll_paused fns2 st P); reflexivity | ].
  destruct (fn st); auto.
Qed.

(** X8. In a round of the poll, once [getLocationDates] has found a
    candidate at one location, the queue being paused and the call of
    [holdSlot] absent, no later location of the round is queried, and no
    later round queries any. *)
Theorem poll_stops_at_first_candidate pre location post st st1 st2 :
  addAll (getLocationFunctions config network pre) st = Returned tt st1 ->
  isPaused st1 = false ->
  getLocationDates config network (site location) st1 = Returned true st2 ->
  addAll (getLocationFunctions config network (pre ++ location :: post)) st
  = Returned tt st2
  /\ forall later,
       addAll (getLocationFunctions config network later) st2 = Returned tt st2.
Proof.
  intros Hpre P Hloc.
  assert (isPaused st2 = true) as P2.
  { pose proof (getLocationDates_cases (site location) st1) as C.
    cbv zeta in C. rewrite Hloc in C. simpl in C. tauto. }
  split; [ | intros later; apply addAll_paused, P2].
  unfold getLocationFunctions. rewrite map_app, addAll_app.
  fold (getLocationFunctions config network pre). rewrite Hpre.
  simpl. rewrite P, Hloc. apply addAll_paused, P2.
Qed.

(** X9. A round of the poll, whatever the locations and whatever the
    network answers, sends requests to the dates endpoint only, leaves
    the hold flag, the booked flag and the existing booking as they
    were, never restarts a paused queue, and ends the process, if at
    all, with code 0 or 1. *)
Theorem poll_round_only_queries_dates (availableLocation : list AvailableLocation)
    (st : State) :
  let o := addAll (getLocationFunctions config network availableLocation) st in
  let st' := finalState o in
  existBooking st' = existBooking st
  /\ isBooked st' = isBooked st
  /\ isHolded st' = isHolded st
  /\ (exists reqs,
        sent st' = sent st ++ reqs /\ sentTo "/api/AvailableLocationDates" reqs)
  /\ (isPaused st = true -> st' = st)
  /\ match o with
     | Returned _ _ => True
     | Exited code _ => code = 0 \/ code = 1
     | Rejected _ _ => False
     end.
Proof.
  cbv zeta. revert st.
  induction availableLocation as [| location l IH]; intros st.
  - simpl. repeat split; auto. exists []. split; [ | constructor].
    symmetry. apply app_nil_r.
  - simpl. destruct (isPaused st) eqn:P.
    + simpl. repeat split; auto. exists []. split; [ | constructor].
      symmetry. apply app_nil_r.
    + pose proof (getLocationDates_cases (site location) st) as C.
      cbv zeta in C.
      destruct (getLocationDates config network (site location) st)
        as [b st1 | code st1 | r st1]; simpl in C;
        destruct C as (Eb & Ek & Eh & (reqs & Es & Ft) & C).
      2: { simpl. repeat split; auto; [eauto | discriminate | ].
           destruct C as [[-> _] | [-> _]]; auto. }
      all: specialize (IH st1);
        destruct IH as (Eb' & Ek' & Eh' & (reqs' & Es' & Ft') & _ & C');
        repeat split; try congruence; try exact C'.
      all: exists (reqs ++ reqs'); split;
        [rewrite Es', Es, app_assoc; reflexivity | apply Forall_app; auto].
Qed.

(** X10. [getLocationDates] ends the process in two cases only: with
    code 1 when the transport gave up, and with code 0 when a booking
    exists already and cancelIfExist is off. *)
Theorem getLocationDates_exit_codes location st code st' :
  getLocationDates config network location st = Exited code st' ->
  code = 1
  \/ (code = 0
      /\ cancelIfExist (appSettings config) = false
      /\ existBooking_exist st = true).
Proof.
  intros H. pose proof (getLocationDates_cases location st) as C.
  cbv zeta in C. rewrite H in C. simpl in C. tauto.
Qed.

(** X11. When a candidate is found and the policy lets the booking go on
    (auto-cancel is on, or there is no existing booking),
    [getLocationDates] logs the candidate, leaves the queue paused and
    resolves to true; it sends nothing after the query for the dates, so
    no hold is requested, and the hold flag is left as it was. *)
Theorem getLocationDates_candidate_not_held location st res st1 dates slot :
  requestApi config network "/api/AvailableLocationDates" POST
    (datesRequestBody config location) 0 st = Returned res st1 ->
  bodyJson res = JsonLocationDates dates ->
  booking config (AvailableDates config dates) = Some slot ->
  cancelIfExist (appSettings config) = true \/ existBooking_exist st = false ->
  exists st',
    getLocationDates config network location st = Returned true st'
    /\ isPaused st' = true
    /\ sent st' = sent st1
    /\ isHolded st' = isHolded st
    /\ logged st' = logged st1 ++
         [{| level := Info;
             message := Name location ++ " is available on "
                          ++ FormattedStartDateTime slot
                          ++ "! Booking appointment..." |}].
Proof.
  intros R J B Hpol.
  pose proof (requestApi_frame config network "/api/AvailableLocationDates"
                POST (datesRequestBody config location) 0 st) as F.
  rewrite R in F. cbv zeta in F. simpl in F.
  destruct F as (Eb & _ & Eh & _).
  rewrite (getLocationDates_candidate config network location st res st1
             dates slot R J B).
  cbv zeta.
  assert (negb (cancelIfExist (appSettings config)) && existBooking_exist st1
          = false) as E.
  { unfold existBooking_exist in *. rewrite Eb.
    destruct Hpol as [-> | ->]; [reflexivity | apply andb_false_r]. }
  rewrite E. eexists. split; [reflexivity | ]. simpl. auto.
Qed.

(** X12. When no date is left to choose from, [getLocationDates] logs
    that the location is not available, today in same-day mode and in
    the next daysAround.end days otherwise, and rejects; the queue is
    not paused and the process goes on.  The text of the line is given
    for same-day mode and, in windowed mode, for a daysAround.end that
    is a safe integer, which is printed with all its digits. *)
Theorem getLocationDates_not_available_logs place st res st1 dates :
  requestApi config network "/api/AvailableLocationDates" POST
    (datesRequestBody config place) 0 st = Returned res st1 ->
  bodyJson res = JsonLocationDates dates ->
  AvailableDates config dates = [] ->
  sameDay (location config) = true
  \/ Z.abs (daysAround_end (daysAround (location config))) <= MAX_SAFE_INTEGER ->
  exists st',
    getLocationDates config network place st = Rejected NoReason st'
    /\ isPaused st' = isPaused st
    /\ sent st' = sent st1
    /\ logged st' = logged st1 ++
         [{| level := Info;
             message :=
               Name place ++ " is not available "
                 ++ (if sameDay (location config) then "today."
                     else "in the next "
                            ++ showZ (daysAround_end (daysAround (location config)))
                            ++ " days.")
                 ++ " " |}].
Proof.
  intros R J E _.
  pose proof (requestApi_frame config network "/api/AvailableLocationDates"
                POST (datesRequestBody config place) 0 st) as F.
  rewrite R in F. cbv zeta in F. simpl in F.
  eexists. split.
  - unfold getLocationDates, bind. rewrite R, J, E. reflexivity.
  - simpl. tauto.
Qed.

End PollFacts.

(** ** The booking steps, whatever the network answers *)
Section BookingFacts.

Variable config : Config.
Variable network : nat -> Response.
Variable JSON_stringify : BookSlotResponse -> string.

Lemma sameFlags_refl st : sameFlags st st.
Proof. repeat split. Qed.

Lemma sameFlags_trans st1 st2 st3 :
  sameFlags st1 st2 -> sameFlags st2 st3 -> sameFlags st1 st3.
Proof.
  unfold sameFlags. intros (A & B & C & D) (A' & B' & C' & D').
  repeat split; congruence.
Qed.

Lemma sameFlags_addLog l msg st : sameFlags st (addLog l msg st).
Proof. repeat split. Qed.

Lemma requestApi_oneEndpoint url verb payload r :
  oneEndpoint url (requestApi config network url verb payload r).
Proof.
  intros st. cbv zeta. split; [apply requestApi_sameFlags | ].
  split.
  - destruct (requestApi_frame config network url verb payload r st)
      as (_ & _ & _ & _ & S & _). exact S.
  - destruct (requestApi_outcome config network url verb payload r st)
      as [(res & st' & E & _) | (st' & E)]; rewrite E; auto.
Qed.

Lemma cancelBooking_oneEndpoint cn :
  oneEndpoint "/api/CancelBooking" (cancelBooking config network cn).
Proof.
  intros st. cbv zeta. unfold cancelBooking, bind.
  destruct (requestApi_oneEndpoint "/api/CancelBooking" POST
              (CancelBookingPayload cn (dob (personalInfo config))
                 (lastFourSSN (personalInfo config))
                 (firstName (personalInfo config))
                 (lastName (personalInfo config))) 0 st) as (F & S & C).
  destruct (requestApi config network "/api/CancelBooking" POST _ 0 st);
    simpl in *;
    [exact (conj F (conj S I)) | exact (conj F (conj S C))
     | exact (conj F (conj S I))].
Qed.

Lemma unchanged_oneEndpoint {A : Type} url (o : Outcome A) st :
  finalState o = st ->
  match o with Exited _ _ => False | _ => True end ->
  sameFlags st (finalState o)
  /\ (exists reqs, sent (finalState o) = sent st ++ reqs /\ sentTo url reqs)
  /\ match o with
     | Exited code _ => code = 1
     | _ => True
     end.
Proof.
  intros E N. rewrite E. split; [apply sameFlags_refl | ]. split.
  - exists []. split; [ | constructor]. symmetry. apply app_nil_r.
  - destruct o; auto. destruct N.
Qed.

Lemma cancelExisting_oneEndpoint :
  oneEndpoint "/api/CancelBooking" (cancelExisting config network).
Proof.
  intros st. cbv zeta. unfold cancelExisting, bind, get.
  destruct (existBooking st) as [eb | ];
    [ | apply unchanged_oneEndpoint; [reflexivity | exact I]].
  destruct (exist eb);
    [ | apply unchanged_oneEndpoint; [reflexivity | exact I]].
  destruct (nth_error (response eb) 0) as [b | ];
    [ | apply unchanged_oneEndpoint; [reflexivity | exact I]].
  unfold log.info at 1. unfold modify.
  destruct (cancelBooking_oneEndpoint (ConfirmationNumber b)
              (addLog Info
                 ("Canceling existing appointment: " ++ ConfirmationNumber b ++ ".")
                 st)) as (F & S & C).
  split; [ | split; [exact S | exact C]].
  exact (sameFlags_trans _ _ _ (sameFlags_addLog _ _ st) F).
Qed.

Lemma cancelExisting_nothing st :
  existBooking_exist st = false ->
  cancelExisting config network st = Returned tt st.
Proof.
  unfold existBooking_exist, cancelExisting, bind, get.
  destruct (existBooking st) as [eb | ]; [intros -> | ]; reflexivity.
Qed.

Lemma getResponseId_oneEndpoint :
  oneEndpoint "/api/Eligibility" (getResponseId config network).
Proof.
  intros st. cbv zeta. unfold getResponseId, bind.
  destruct (requestApi_oneEndpoint "/api/Eligibility" POST
              (EligibilityPayload (firstName (personalInfo config))
                 (lastName (personalInfo config)) (dob (personalInfo config))
                 (lastFourSSN (personalInfo config)) "") 0 st) as (F & S & C).
  destruct (requestApi config network "/api/Eligibility" POST _ 0 st)
    as [res st1 | code st1 | r st1]; simpl in *;
    [ | exact (conj F (conj S C)) | exact (conj F (conj S I))].
  destruct (bodyJson res); simpl; try exact (conj F (conj S I)).
  destruct responses; simpl; exact (conj F (conj S I)).
Qed.

(** X13. The requests of [bookSlot] come in one order, however the call
    ends: those that cancel the existing booking, then those for the
    eligibility, then those for the new booking; and none cancels
    anything when no booking exists. *)
Theorem bookSlot_request_order booking location st :
  let st' :=
    finalState (bookSlot config network JSON_stringify booking location st) in
  exists cancels eligibilities bookings,
    sent st' = sent st ++ cancels ++ eligibilities ++ bookings
    /\ sentTo "/api/CancelBooking" cancels
    /\ sentTo "/api/Eligibility" eligibilities
    /\ sentTo "/api/NewBooking" bookings
    /\ (existBooking_exist st = false -> cancels = []).
Proof.
  cbv zeta. unfold bookSlot, bind, get.
  assert (forall s ca el, sent s = sent st ++ ca ++ el ->
            sentTo "/api/CancelBooking" ca -> sentTo "/api/Eligibility" el ->
            (existBooking_exist st = false -> ca = []) ->
            exists cancels eligibilities bookings,
              sent s = sent st ++ cancels ++ eligibilities ++ bookings
              /\ sentTo "/api/CancelBooking" cancels
              /\ sentTo "/api/Eligibility" eligibilities
              /\ sentTo "/api/NewBooking" bookings
              /\ (existBooking_exist st = false -> cancels = [])) as Done.
  { intros s ca el E C1 C2 C3. exists ca, el, [].
    rewrite app_nil_r. repeat split; auto. constructor. }
  destruct (isBooked st) eqn:Hb.
  { apply (Done st [] []);
      [simpl; symmetry; apply app_nil_r | apply Forall_nil | apply Forall_nil
       | reflexivity]. }
  unfold log.info at 1. unfold modify at 1.
  set (st0 := addLog Info "Booking appointment..." st).
  destruct (cancelExisting_oneEndpoint st0) as (_ & (ca & Eca & Fca) & _).
  cbv zeta in Eca.
  assert (existBooking_exist st = false -> ca = []) as Hca.
  { intros H. rewrite (cancelExisting_nothing st0 H) in Eca. simpl in Eca.
    rewrite <- (app_nil_r (sent st)) in Eca at 1.
    apply app_inv_head in Eca. auto. }
  destruct (cancelExisting config network st0) as [[] st1 | code st1 | r st1];
    simpl in Eca |- *;
    try (apply (Done st1 ca []);
         [rewrite app_nil_r; exact Eca | exact Fca | apply Forall_nil
          | exact Hca]).
  destruct (getResponseId_oneEndpoint st1) as (_ & (el & Eel & Fel) & _).
  cbv zeta in Eel.
  destruct (getResponseId config network st1) as [rid st2 | code st2 | r st2];
    simpl in Eel |- *;
    try (apply (Done st2 ca el);
         [rewrite Eel, Eca, <- app_assoc; reflexivity | exact Fca | exact Fel
          | exact Hca]).
  destruct (requestApi_oneEndpoint "/api/NewBooking" POST
              (NewBookingPayload
                 (newBookingRequestBody config booking location rid)) 0 st2)
    as (_ & (bk & Ebk & Fbk) & _).
  cbv zeta in Ebk.
  assert (forall s, sent s = sent st2 ++ bk ->
            exists cancels eligibilities bookings,
              sent s = sent st ++ cancels ++ eligibilities ++ bookings
              /\ sentTo "/api/CancelBooking" cancels
              /\ sentTo "/api/Eligibility" eligibilities
              /\ sentTo "/api/NewBooking" bookings
              /\ (existBooking_exist st = false -> cancels = [])) as Done3.
  { intros s E. exists ca, el, bk. repeat split; auto.
    rewrite E, Eel, Eca, <- !app_assoc. reflexivity. }
  destruct (requestApi config network "/api/NewBooking" POST _ 0 st2)
    as [res st3 | code st3 | r st3]; simpl in Ebk |- *;
    try (apply Done3; exact Ebk).
  unfold when, queue.start, log.error, log.info, modify, ret, exit, reject.
  destruct (statusCode res =? 200); simpl.
  - destruct (bodyJson res); simpl; try (apply Done3; exact Ebk).
    destruct (Booking bookingInfo); simpl; [apply Done3; exact Ebk | ].
    destruct (isPaused st3); simpl; apply Done3; exact Ebk.
  - destruct (isPaused st3); simpl; apply Done3; exact Ebk.
Qed.

End BookingFacts.

Section BookingOutcomes.

Variable config : Config.
Variable network : nat -> Response.
Variable JSON_stringify : BookSlotResponse -> string.

(** X14. The flags [bookSlot] leaves, by the way it ends.  When it
    returns, the booked flag is as before and, unless a booking was
    already made, the hold flag is clear and the queue runs.  When the
    process exits, either the code is 0 and the booked flag is set, or
    the code is 1 and no flag has changed.  When the call is rejected
    (an empty eligibility answer, say), no flag has changed: a hold flag
    that was set stays set and a paused queue stays paused. *)
Theorem bookSlot_flags_by_outcome booking location st :
  match bookSlot config network JSON_stringify booking location st with
  | Returned _ st' =>
      isBooked st' = isBooked st
      /\ (isBooked st = false -> isHolded st' = false /\ isPaused st' = false)
  | Exited code st' =>
      (code = 0 /\ isBooked st' = true) \/ (code = 1 /\ sameFlags st st')
  | Rejected _ st' => sameFlags st st'
  end.
Proof.
  unfold bookSlot, bind, get.
  destruct (isBooked st) eqn:Hb; [split; [exact Hb | discriminate] | ].
  unfold log.info at 1. unfold modify at 1.
  pose proof (sameFlags_addLog Info "Booking appointment..." st) as F0.
  set (st0 := addLog Info "Booking appointment..." st) in *.
  destruct (cancelExisting_oneEndpoint config network st0) as (F1 & _ & C1).
  cbv zeta in F1, C1.
  destruct (cancelExisting config network st0) as [[] st1 | code st1 | r st1];
    simpl in F1, C1 |- *;
    pose proof (sameFlags_trans _ _ _ F0 F1) as G1;
    [ | right; split; assumption | exact G1].
  destruct (getResponseId_oneEndpoint config network st1) as (F2 & _ & C2).
  cbv zeta in F2, C2.
  destruct (getResponseId config network st1) as [rid st2 | code st2 | r st2];
    simpl in F2, C2 |- *;
    pose proof (sameFlags_trans _ _ _ G1 F2) as G2;
    [ | right; split; assumption | exact G2].
  destruct (requestApi_oneEndpoint config network "/api/NewBooking" POST
              (NewBookingPayload
                 (newBookingRequestBody config booking location rid)) 0 st2)
    as (F3 & _ & C3).
  cbv zeta in F3, C3.
  destruct (requestApi config network "/api/NewBooking" POST _ 0 st2)
    as [res st3 | code st3 | r st3] eqn:R;
    simpl in F3, C3 |- *;
    pose proof (sameFlags_trans _ _ _ G2 F3) as G3;
    [ | right; split; assumption | exact G3].
  rewrite (requestApi_Returned_200 _ _ _ _ _ _ _ _ _ R). simpl.
  destruct (bodyJson res); simpl; try exact G3.
  destruct G3 as (Gb & Gk & Gh & Gp).
  unfold when, queue.start, log.error, log.info, modify, ret, exit.
  destruct (Booking bookingInfo); simpl; [left; auto | ].
  destruct (isPaused st3) eqn:P; simpl; rewrite ?P; repeat split; congruence.
Qed.

(** X15. When the booking request returns a response whose Booking is
    not null, [bookSlot] sets the booked flag, logs the confirmation
    number and the address of the confirmation, and the process exits
    with code 0. *)
Theorem bookSlot_booked_exits_0
    booking location st st1 responseId st2 res st3 info confirmed :
  isBooked st = false ->
  cancelExisting config network (addLog Info "Booking appointment..." st)
    = Returned tt st1 ->
  getResponseId config network st1 = Returned responseId st2 ->
  requestApi config network "/api/NewBooking" POST
    (NewBookingPayload (newBookingRequestBody config booking location responseId))
    0 st2 = Returned res st3 ->
  bodyJson res = JsonBookSlot info ->
  Booking info = Some confirmed ->
  exists st',
    bookSlot config network JSON_stringify booking location st = Exited 0 st'
    /\ isBooked st' = true
    /\ sent st' = sent st3
    /\ logged st' = logged st3 ++
         [{| level := Info;
             message := "Appointment booked successfully. Confirmation Number: "
                          ++ Booking_ConfirmationNumber confirmed ++ "." |};
          {| level := Info;
             message := "Please visit the following URL to print your confirmation: "
                          ++ ("https://public.txdpsscheduler.com/?b="
                                ++ Booking_ConfirmationNumber confirmed)
                          ++ "." |}].
Proof.
  intros Hb Hc Hr Hn Hj Hsome.
  pose proof (requestApi_Returned_200 _ _ _ _ _ _ _ _ _ Hn) as H200.
  unfold bookSlot, bind, get. rewrite Hb.
  unfold log.info at 1. unfold modify at 1. rewrite Hc, Hr. cbv zeta.
  rewrite Hn, H200, Hj, Hsome. simpl.
  eexists. split; [reflexivity | ]. simpl.
  rewrite <- app_assoc. repeat split.
Qed.

(** X16. When a booking exists and every answer of the network is a
    failure, [bookSlot] does not go on to book: after maxRetry + 1
    requests to cancel, the process exits with code 1, no request for
    the eligibility or for the new booking being sent. *)
Theorem bookSlot_cancel_failure_exits booking location st eb existing others :
  isBooked st = false ->
  existBooking st = Some eb ->
  exist eb = true ->
  response eb = existing :: others ->
  0 <= maxRetry (appSettings config) ->
  (forall n, statusCode (network n) <> 200) ->
  exists st',
    bookSlot config network JSON_stringify booking location st = Exited 1 st'
    /\ sent st' = sent st ++
         attempts "/api/CancelBooking" POST
           (CancelBookingPayload (ConfirmationNumber existing)
              (dob (personalInfo config)) (lastFourSSN (personalInfo config))
              (firstName (personalInfo config)) (lastName (personalInfo config)))
           0 (Z.to_nat (maxRetry (appSettings config)) + 1).
Proof.
  intros Hb He Hx Hr Hk Hnet.
  unfold bookSlot, bind, get. rewrite Hb.
  unfold log.info at 1. unfold modify at 1.
  unfold cancelExisting, bind, get. simpl. rewrite He, Hx, Hr. simpl.
  unfold cancelBooking, bind. cbv zeta.
  match goal with
  | |- context [requestApi _ _ ?u ?v ?p 0 ?s] =>
      destruct (requestApi_exhausts config network u v p 0 s Hnet Hk)
        as (st' & E & Es)
  end.
  rewrite E. exists st'. split; [reflexivity | ].
  rewrite Es, Z.sub_0_r. reflexivity.
Qed.

(** X17. When the API reports that the slot could not be held,
    [holdSlot] logs the failure and the API's message, leaves the queue
    started and the hold flag clear, and returns without any request for
    a booking. *)
Theorem holdSlot_rejected_resumes booking location st res st1 held :
  isHolded st = false ->
  requestApi config network "/api/HoldSlot" POST
    (HoldSlotPayload (dob (personalInfo config)) (firstName (personalInfo config))
       (lastName (personalInfo config)) (lastFourSSN (personalInfo config))
       (SlotId booking)) 0 st = Returned res st1 ->
  bodyJson res = JsonHoldSlot held ->
  SlotHeldSuccessfully held = false ->
  exists st',
    holdSlot config network JSON_stringify booking location st = Returned tt st'
    /\ isHolded st' = false
    /\ isPaused st' = false
    /\ isBooked st' = isBooked st
    /\ sent st' = sent st1
    /\ logged st' = logged st1 ++
         [{| level := Error; message := "Failed to hold appointment slot." |};
          {| level := Error;
             message := "Error Message: " ++ ErrorMessage held |}].
Proof.
  intros Hh R J Hs.
  pose proof (requestApi_sameFlags config network "/api/HoldSlot" POST
                (HoldSlotPayload (dob (personalInfo config))
                   (firstName (personalInfo config))
                   (lastName (personalInfo config))
                   (lastFourSSN (personalInfo config)) (SlotId booking)) 0 st)
    as (_ & Fk & Fh & _).
  rewrite R in Fk, Fh. simpl in Fk, Fh.
  unfold holdSlot, bind, get. rewrite Hh, R, J, Hs. simpl.
  unfold when, queue.start, log.error, modify, ret.
  destruct (isPaused st1) eqn:P; simpl; eexists; (split; [reflexivity | ]);
    simpl; rewrite <- app_assoc, ?P; repeat split; congruence.
Qed.

(** X18. The two guards: with the hold flag set [holdSlot], and with
    the booked flag set [bookSlot], return at once; nothing is sent,
    nothing is logged, no flag changes. *)
Theorem guards_return_at_once booking location st :
  (isHolded st = true ->
   holdSlot config network JSON_stringify booking location st = Returned tt st)
  /\ (isBooked st = true ->
      bookSlot config network JSON_stringify booking location st = Returned tt st).
Proof.
  split; intros H; [unfold holdSlot | unfold bookSlot];
    unfold bind, get; rewrite H; reflexivity.
Qed.

(** X19. [getResponseId] reads the first element of the eligibility
    answer: it resolves to its ResponseId, and on an empty answer the
    read of [response[0].ResponseId] raises a TypeError. *)
Theorem getResponseId_first_or_TypeError st res st1 responses :
  requestApi config network "/api/Eligibility" POST
    (EligibilityPayload (firstName (personalInfo config))
       (lastName (personalInfo config)) (dob (personalInfo config))
       (lastFourSSN (personalInfo config)) "") 0 st = Returned res st1 ->
  bodyJson res = JsonEligibility responses ->
  getResponseId config network st
  = match responses with
    | [] => Rejected TypeError st1
    | first :: _ => Returned (ResponseId first) st1
    end.
Proof.
  intros R J. unfold getResponseId, bind. rewrite R, J.
  destruct responses; reflexivity.
Qed.

(** X20. With no typeId in the configuration, the requests for dates
    and for the booking carry the service type 71, while the guard
    compares the service type of each booking with the missing typeId
    and so finds no existing booking, whatever the API lists. *)
Theorem missing_typeId_finds_no_booking (bookings : list ExistBookingResponse) :
  typeId (personalInfo config) = None ->
  typeIdOr71 config = 71
  /\ existBookingOf config bookings = {| exist := false; response := [] |}.
Proof.
  intros H. unfold typeIdOr71, existBookingOf. rewrite H.
  split; [reflexivity | ].
  assert (filter (fun _ : ExistBookingResponse => false) bookings = []) as E
    by (induction bookings; auto).
  rewrite E. reflexivity.
Qed.

End BookingOutcomes.

(** ** The availability filter on the edges of its configuration *)
Section FilterEdges.

Variable config : Config.

Let windowStartHour := timesAround_start (timesAround (location config)).
Let windowEndHour := timesAround_end (timesAround (location config)).
Let startOffsetDays := daysAround_start (daysAround (location config)).
Let endOffsetDays := daysAround_end (daysAround (location config)).

Lemma filter_all {A} (p : A -> bool) l :
  (forall x, In x l -> p x = true) -> filter p l = l.
Proof.
  induction l as [| a l IH]; intros H; simpl; [reflexivity | ].
  rewrite (H a (or_introl eq_refl)). f_equal. apply IH. intros x Hx.
  apply H. right. exact Hx.
Qed.

Lemma filter_none {A} (p : A -> bool) l :
  (forall x, In x l -> p x = false) -> filter p l = [].
Proof.
  induction l as [| a l IH]; intros H; simpl; [reflexivity | ].
  rewrite (H a (or_introl eq_refl)). apply IH. intros x Hx.
  apply H. right. exact Hx.
Qed.

Lemma withFilteredTimeSlots_idempotent date :
  withFilteredTimeSlots config (withFilteredTimeSlots config date)
  = withFilteredTimeSlots config date.
Proof.
  unfold withFilteredTimeSlots, filteredTimeSlots. simpl. f_equal.
  apply filter_all. intros s Hs. apply filter_In in Hs. tauto.
Qed.

Lemma day_range t : 0 <= day t < 7.
Proof. unfold day. apply Z.mod_pos_bound. lia. Qed.

(** X21. The availability filter is idempotent: applied to its own
    result it changes nothing, in either mode. *)
Theorem availabilityFilter_idempotent (response : list LocationAvailabilityDate) :
  availabilityFilter config (availabilityFilter config response)
  = availabilityFilter config response.
Proof.
  rewrite (availabilityFilter_passes config (availabilityFilter config response)).
  rewrite (availabilityFilter_passes config response).
  rewrite filter_all.
  - rewrite map_map. apply map_ext. apply withFilteredTimeSlots_idempotent.
  - intros d' H. apply in_map_iff in H as (d & <- & H).
    apply filter_In in H as [_ H].
    rewrite (passes_ext config d (withFilteredTimeSlots config d)
               (withFilteredTimeSlots_idempotent d)).
    exact H.
Qed.

(** X22. What the filter returns is well formed: every date it returns
    has at least one slot, every slot of it starts within the hour
    window, and there are no more dates than in the input. *)
Theorem availabilityFilter_result_well_formed
    (response : list LocationAvailabilityDate) :
  Forall
    (fun date =>
       AvailableTimeSlots date <> []
       /\ Forall (fun slot =>
                    windowStartHour <= hour (StartDateTime slot) < windowEndHour)
                 (AvailableTimeSlots date))
    (availabilityFilter config response)
  /\ (List.length (availabilityFilter config response)
      <= List.length response)%nat.
Proof.
  rewrite availabilityFilter_passes. split.
  - apply Forall_forall. intros d' H. apply in_map_iff in H as (d & <- & H).
    apply filter_In in H as [_ H]. apply passes_spec in H as [_ F].
    split; [exact F | ]. apply Forall_forall. intros s Hs. simpl in Hs.
    unfold filteredTimeSlots in Hs. apply filter_In in Hs as [_ Hs].
    apply hourInWindow_spec in Hs. exact Hs.
  - rewrite length_map. apply filter_length_le.
Qed.

(** X23. With an hour window whose end is not after its start, no slot
    survives: the filter returns nothing whatever the input, and the
    selection of line 208 reads a property of [undefined] whenever it is
    reached. *)
Theorem empty_hour_window_keeps_nothing (response : list LocationAvailabilityDate) :
  windowEndHour <= windowStartHour ->
  availabilityFilter config response = []
  /\ booking config response = None.
Proof.
  intros W.
  assert (forall date, filteredTimeSlots config date = []) as E.
  { intros date. unfold filteredTimeSlots. apply filter_none. intros s _.
    destruct (hourInWindow config s) eqn:H; [ | reflexivity].
    apply hourInWindow_spec in H. subst windowStartHour windowEndHour. lia. }
  split.
  - rewrite availabilityFilter_passes, filter_none; [reflexivity | ].
    intros d _. unfold passes. rewrite E. apply andb_false_r.
  - destruct (booking config response) as [slot | ] eqn:B; [ | reflexivity].
    destruct (proj1 (booking_defined_iff config response) (ex_intro _ slot B))
      as (date & _ & H).
    destruct (H (E date)).
Qed.

(** X24. With an hour window that covers the day (start at most 0, end
    at least 24), the hour filter drops no slot. *)
Theorem full_day_window_keeps_every_slot (date : LocationAvailabilityDate) :
  windowStartHour <= 0 -> 24 <= windowEndHour ->
  filteredTimeSlots config date = AvailableTimeSlots date.
Proof.
  intros S E. unfold filteredTimeSlots. apply filter_all. intros s _.
  apply hourInWindow_spec. pose proof (hour_range (StartDateTime s)).
  subst windowStartHour windowEndHour. lia.
Qed.

(** X25. In windowed mode, two day offsets that are equal or differ by
    one leave no day strictly between them: the filter returns nothing
    whatever the input. *)
Theorem adjacent_day_offsets_keep_nothing
    (response : list LocationAvailabilityDate) :
  sameDay (location config) = false ->
  Z.abs (endOffsetDays - startOffsetDays) <= 1 ->
  availabilityFilter config response = [].
Proof.
  intros S W. rewrite availabilityFilter_passes, filter_none; [reflexivity | ].
  intros d _. destruct (passes config d) eqn:P; [ | reflexivity].
  apply passes_spec in P as [[P | [P _]] _]; [congruence | ].
  apply isBetweenDay_addDays in P. destruct P as (_ & _ & _ & P).
  subst startOffsetDays endOffsetDays. lia.
Qed.

(** X26. The weekday of a date is a number from 0 to 6: in windowed
    mode, a non-empty list of preferred days that holds no such number
    lets no date through. *)
Theorem preferred_days_out_of_range_keep_nothing
    (response : list LocationAvailabilityDate) :
  sameDay (location config) = false ->
  preferredDays (location config) <> [] ->
  (forall p, In p (preferredDays (location config)) -> p < 0 \/ 6 < p) ->
  availabilityFilter config response = [].
Proof.
  intros S Hne Hout.
  rewrite availabilityFilter_passes, filter_none; [reflexivity | ].
  intros d _. destruct (passes config d) eqn:P; [ | reflexivity].
  apply passes_spec in P as [[P | [_ P]] _]; [congruence | ].
  apply preferredDaysCondition_spec in P as [P | P]; [congruence | ].
  pose proof (day_range (AvailabilityDate d)). specialize (Hout _ P). lia.
Qed.

(** X27. The selection of line 208 fails on its first index only: it
    yields no slot exactly when the list of filtered dates is empty, the
    second index, into the slots of the first filtered date, being
    always in bounds. *)
Theorem booking_fails_on_first_index_only (dates : list LocationAvailabilityDate) :
  booking config dates = None <-> filteredAvailabilityDates config dates = [].
Proof.
  unfold booking.
  destruct (filteredAvailabilityDates config dates) as [| d rest] eqn:E; simpl.
  - tauto.
  - split; [ | discriminate]. intros H. exfalso.
    assert (In d (filteredAvailabilityDates config dates)) as Hd
      by (rewrite E; left; reflexivity).
    apply filteredAvailabilityDates_In in Hd as (raw & _ & -> & Hne).
    simpl in H. destruct (filteredTimeSlots config raw); [congruence | discriminate].
Qed.

End FilterEdges.

(** ** Runs of the further properties on sample data *)

Lemma locations_within_miles_witness :
  (exists el,
      In el (getAllLocationFromZipCodes_value More.responses)
      /\ (Distance el < 2)%Q)
  /\ exists result st',
       requestAvailableLocation_byDistance 2 More.showMiles
         (getAllLocationFromZipCodes_value More.responses) (Sample.idle None)
       = Returned result st'
       /\ (forall el,
              In el result
              <-> In el (getAllLocationFromZipCodes_value More.responses)
                  /\ (Distance el < 2)%Q).
Proof.
  assert (exists el,
             In el (getAllLocationFromZipCodes_value More.responses)
             /\ (Distance el < 2)%Q) as H.
  { exists (setZipCode "78702" (samplePlace 2 (1 # 2))).
    split; [left; reflexivity | reflexivity]. }
  split; [exact H | ].
  destruct (locations_within_miles 2 More.showMiles _ (Sample.idle None) H)
    as (result & st' & E & I & _).
  exists result, st'. split; [exact E | exact I].
Defined.

Lemma no_location_within_miles_witness :
  (forall el, In el (getAllLocationFromZipCodes_value More.responses) ->
              (1 # 4 <= Distance el)%Q)
  /\ exists st',
       requestAvailableLocation_byDistance (1 # 4) More.showMiles
         (getAllLocationFromZipCodes_value More.responses) (Sample.idle None)
       = Exited 0 st'.
Proof.
  assert (forall el, In el (getAllLocationFromZipCodes_value More.responses) ->
                     (1 # 4 <= Distance el)%Q) as H.
  { intros el Hel. vm_compute in Hel.
    repeat (destruct Hel as [<- | Hel]; [vm_compute; discriminate | ]).
    destruct Hel. }
  split; [exact H | ].
  eexists.
  exact (no_location_within_miles (1 # 4) More.showMiles _ (Sample.idle None) H).
Defined.

Lemma nearest_location_is_reported_witness :
  finalArray More.responses <> []
  /\ (forall el, In el (finalArray More.responses) -> (1 # 4 <= Distance el)%Q)
  /\ exists nearest,
       In nearest (finalArray More.responses)
       /\ Forall (nearerOrEqual nearest) (finalArray More.responses).
Proof.
  assert (finalArray More.responses <> []) as Hne by (vm_compute; discriminate).
  assert (forall el, In el (finalArray More.responses) ->
                     (1 # 4 <= Distance el)%Q) as H.
  { intros el Hel. vm_compute in Hel.
    repeat (destruct Hel as [<- | Hel]; [vm_compute; discriminate | ]).
    destruct Hel. }
  split; [exact Hne | ]. split; [exact H | ].
  destruct (nearest_location_is_reported (1 # 4) More.showMiles More.responses
              (Sample.idle None) Hne H) as (nearest & I & F & _).
  exists nearest. split; [exact I | exact F].
Defined.

Lemma requestApi_succeeds_after_failures_witness :
  2 <= maxRetry (appSettings Sample.windowed)
  /\ (forall i, (i < 2)%nat ->
                statusCode (More.flakyNetwork JsonOther (0 + i)) <> 200)
  /\ statusCode (More.flakyNetwork JsonOther (0 + 2)) = 200
  /\ exists st',
       requestApi Sample.windowed (More.flakyNetwork JsonOther) "/api/HoldSlot"
         POST (HoldSlotPayload "" "" "" "" 7) 0 (Sample.idle None)
       = Returned (More.flakyNetwork JsonOther 2) st'
       /\ List.length (sent st') = 3%nat
       /\ List.length (logged st') = 4%nat.
Proof.
  assert (Z.of_nat 2 <= maxRetry (appSettings Sample.windowed)) as Hk
    by (simpl; lia).
  assert (forall i, (i < 2)%nat ->
            statusCode
              (More.flakyNetwork JsonOther
                 (List.length (sent (Sample.idle None)) + i)) <> 200) as Hf.
  { intros i Hi. simpl. unfold More.flakyNetwork.
    destruct (Nat.ltb_spec i 2); [discriminate | lia]. }
  assert (statusCode
            (More.flakyNetwork JsonOther
               (List.length (sent (Sample.idle None)) + 2)) = 200) as Hok
    by reflexivity.
  split; [exact Hk | ]. split; [exact Hf | ]. split; [exact Hok | ].
  destruct (requestApi_succeeds_after_failures Sample.windowed
              (More.flakyNetwork JsonOther) "/api/HoldSlot" POST
              (HoldSlotPayload "" "" "" "" 7) 2 (Sample.idle None) Hk Hf Hok)
    as (st' & E & Es & El).
  exists st'. split; [exact E | ]. split.
  - rewrite Es, length_app, attempts_length. reflexivity.
  - exact El.
Defined.

Lemma poll_stops_at_first_candidate_witness :
  let network := Scenario.datesNetwork [Sample.date 1 [7; 10; 14]] in
  let places := [samplePlace 42 (1 # 1); samplePlace 43 (2 # 1)] in
  let st2 :=
    setPaused true
      (addLog Info "DPS 42 is available on day 1, 10:00! Booking appointment..."
         (issued "/api/AvailableLocationDates" POST
            (datesRequestBody Sample.windowed (site (samplePlace 42 (1 # 1))))
            0 (Sample.idle None))) in
  addAll (getLocationFunctions Sample.windowed network []) (Sample.idle None)
  = Returned tt (Sample.idle None)
  /\ isPaused (Sample.idle None) = false
  /\ getLocationDates Sample.windowed network (site (samplePlace 42 (1 # 1)))
       (Sample.idle None) = Returned true st2
  /\ addAll (getLocationFunctions Sample.windowed network places)
       (Sample.idle None) = Returned tt st2
  /\ List.length (sent st2) = 1%nat.
Proof.
  intros network places st2.
  assert (addAll (getLocationFunctions Sample.windowed network [])
            (Sample.idle None) = Returned tt (Sample.idle None)) as H1
    by reflexivity.
  assert (isPaused (Sample.idle None) = false) as H2 by reflexivity.
  assert (getLocationDates Sample.windowed network
            (site (samplePlace 42 (1 # 1))) (Sample.idle None)
          = Returned true st2) as H3 by reflexivity.
  split; [exact H1 | ]. split; [exact H2 | ]. split; [exact H3 | ].
  split; [ | reflexivity].
  exact (proj1 (poll_stops_at_first_candidate Sample.windowed network []
                  (samplePlace 42 (1 # 1)) [samplePlace 43 (2 # 1)]
                  _ _ _ H1 H2 H3)).
Defined.

Lemma getLocationDates_exit_codes_witness :
  let network := fun _ : nat => Sample.unavailable in
  let st' :=
    gaveUp network "/api/AvailableLocationDates" POST
      (datesRequestBody Sample.windowed Sample.office) 2
      (retried network "/api/AvailableLocationDates" POST
         (datesRequestBody Sample.windowed Sample.office) 1
         (retried network "/api/AvailableLocationDates" POST
            (datesRequestBody Sample.windowed Sample.office) 0
            (Sample.idle None))) in
  getLocationDates Sample.windowed network Sample.office (Sample.idle None)
  = Exited 1 st'
  /\ (1 = 1
      \/ (1 = 0
          /\ cancelIfExist (appSettings Sample.windowed) = false
          /\ existBooking_exist (Sample.idle None) = true)).
Proof.
  intros network st'.
  assert (getLocationDates Sample.windowed network Sample.office
            (Sample.idle None) = Exited 1 st') as H by reflexivity.
  split; [exact H | ].
  exact (getLocationDates_exit_codes Sample.windowed network Sample.office
           (Sample.idle None) 1 st' H).
Defined.

Lemma getLocationDates_candidate_not_held_witness :
  let dates := [Sample.date 1 [7; 10; 14]] in
  let network := Scenario.datesNetwork dates in
  let st1 :=
    issued "/api/AvailableLocationDates" POST
      (datesRequestBody Sample.windowed Sample.office) 0 Scenario.hasBooking in
  requestApi Sample.windowed network "/api/AvailableLocationDates" POST
    (datesRequestBody Sample.windowed Sample.office) 0 Scenario.hasBooking
  = Returned (network 0%nat) st1
  /\ bodyJson (network 0%nat) = JsonLocationDates dates
  /\ booking Sample.windowed (AvailableDates Sample.windowed dates)
     = Some (Sample.slot 1 10)
  /\ (cancelIfExist (appSettings Sample.windowed) = true
      \/ existBooking_exist Scenario.hasBooking = false)
  /\ exists st',
       getLocationDates Sample.windowed network Sample.office Scenario.hasBooking
       = Returned true st'
       /\ isPaused st' = true
       /\ sent st' = sent st1.
Proof.
  intros dates network st1.
  assert (requestApi Sample.windowed network "/api/AvailableLocationDates" POST
            (datesRequestBody Sample.windowed Sample.office) 0
            Scenario.hasBooking = Returned (network 0%nat) st1) as R
    by reflexivity.
  assert (bodyJson (network 0%nat) = JsonLocationDates dates) as J by reflexivity.
  assert (booking Sample.windowed (AvailableDates Sample.windowed dates)
          = Some (Sample.slot 1 10)) as B by reflexivity.
  assert (cancelIfExist (appSettings Sample.windowed) = true
          \/ existBooking_exist Scenario.hasBooking = false) as P
    by (left; reflexivity).
  split; [exact R | ]. split; [exact J | ]. split; [exact B | ].
  split; [exact P | ].
  destruct (getLocationDates_candidate_not_held Sample.windowed network
              Sample.office _ _ _ _ _ R J B P) as (st' & E & Hp & Hs & _).
  exists st'. split; [exact E | split; [exact Hp | exact Hs]].
Defined.

Lemma getLocationDates_not_available_logs_witness :
  let dates := [Sample.date 9 [10]] in
  let network := Scenario.datesNetwork dates in
  let st1 :=
    issued "/api/AvailableLocationDates" POST
      (datesRequestBody Sample.windowed Sample.office) 0 (Sample.idle None) in
  requestApi Sample.windowed network "/api/AvailableLocationDates" POST
    (datesRequestBody Sample.windowed Sample.office) 0 (Sample.idle None)
  = Returned (network 0%nat) st1
  /\ bodyJson (network 0%nat) = JsonLocationDates dates
  /\ AvailableDates Sample.windowed dates = []
  /\ (sameDay (location Sample.windowed) = true
      \/ Z.abs (daysAround_end (daysAround (location Sample.windowed)))
         <= MAX_SAFE_INTEGER)
  /\ exists st',
       getLocationDates Sample.windowed network Sample.office (Sample.idle None)
       = Rejected NoReason st'
       /\ isPaused st' = false
       /\ logged st'
          = [{| level := Info;
                message := "Austin North is not available in the next 7 days. " |}].
Proof.
  intros dates network st1.
  assert (requestApi Sample.windowed network "/api/AvailableLocationDates" POST
            (datesRequestBody Sample.windowed Sample.office) 0
            (Sample.idle None) = Returned (network 0%nat) st1) as R
    by reflexivity.
  assert (bodyJson (network 0%nat) = JsonLocationDates dates) as J by reflexivity.
  assert (AvailableDates Sample.windowed dates = []) as E by reflexivity.
  assert (sameDay (location Sample.windowed) = true
          \/ Z.abs (daysAround_end (daysAround (location Sample.windowed)))
             <= MAX_SAFE_INTEGER) as D
    by (right; vm_compute; discriminate).
  split; [exact R | ]. split; [exact J | ]. split; [exact E | ].
  split; [exact D | ].
  destruct (getLocationDates_not_available_logs Sample.windowed network
              Sample.office _ _ _ _ R J E D) as (st' & X & Hp & _ & Hl).
  exists st'. split; [exact X | split; [exact Hp | exact Hl]].
Defined.

Lemma bookSlot_booked_exits_0_witness :
  let st1 := addLog Info "Booking appointment..." Scenario.holding in
  let st2 :=
    issued "/api/Eligibility" POST
      (EligibilityPayload "Jane" "Doe" "01/31/2000" "6789" "") 0 st1 in
  let st3 :=
    issued "/api/NewBooking" POST
      (NewBookingPayload
         (newBookingRequestBody Sample.windowed (Sample.slot 1 10) Sample.office 5))
      0 st2 in
  isBooked Scenario.holding = false
  /\ cancelExisting Sample.windowed More.bookedNetwork st1 = Returned tt st1
  /\ getResponseId Sample.windowed More.bookedNetwork st1 = Returned 5 st2
  /\ requestApi Sample.windowed More.bookedNetwork "/api/NewBooking" POST
       (NewBookingPayload
          (newBookingRequestBody Sample.windowed (Sample.slot 1 10)
             Sample.office 5)) 0 st2
     = Returned (More.bookedNetwork 1) st3
  /\ bodyJson (More.bookedNetwork 1)
     = JsonBookSlot {| Booking := Some {| Booking_ConfirmationNumber := "C-9" |} |}
  /\ exists st',
       bookSlot Sample.windowed More.bookedNetwork Scenario.stringify
         (Sample.slot 1 10) Sample.office Scenario.holding
       = Exited 0 st'
       /\ isBooked st' = true.
Proof.
  intros st1 st2 st3.
  assert (isBooked Scenario.holding = false) as Hb by reflexivity.
  assert (cancelExisting Sample.windowed More.bookedNetwork st1
          = Returned tt st1) as Hc by reflexivity.
  assert (getResponseId Sample.windowed More.bookedNetwork st1
          = Returned 5 st2) as Hr by reflexivity.
  assert (requestApi Sample.windowed More.bookedNetwork "/api/NewBooking" POST
            (NewBookingPayload
               (newBookingRequestBody Sample.windowed (Sample.slot 1 10)
                  Sample.office 5)) 0 st2
          = Returned (More.bookedNetwork 1) st3) as Hn by reflexivity.
  assert (bodyJson (More.bookedNetwork 1)
          = JsonBookSlot
              {| Booking := Some {| Booking_ConfirmationNumber := "C-9" |} |})
    as Hj by reflexivity.
  split; [exact Hb | ]. split; [exact Hc | ]. split; [exact Hr | ].
  split; [exact Hn | ]. split; [exact Hj | ].
  destruct (bookSlot_booked_exits_0 Sample.windowed More.bookedNetwork
              Scenario.stringify (Sample.slot 1 10) Sample.office
              _ _ _ _ _ _ _ _ Hb Hc Hr Hn Hj eq_refl) as (st' & E & B & _).
  exists st'. split; [exact E | exact B].
Defined.

Lemma bookSlot_cancel_failure_exits_witness :
  let network := fun _ : nat => Sample.unavailable in
  isBooked Scenario.hasBooking = false
  /\ existBooking Scenario.hasBooking
     = Some {| exist := true; response := [Sample.booked] |}
  /\ 0 <= maxRetry (appSettings Sample.windowed)
  /\ (forall n, statusCode (network n) <> 200)
  /\ exists st',
       bookSlot Sample.windowed network Scenario.stringify (Sample.slot 1 10)
         Sample.office Scenario.hasBooking = Exited 1 st'
       /\ List.length (sent st') = 3%nat.
Proof.
  intros network.
  assert (isBooked Scenario.hasBooking = false) as Hb by reflexivity.
  assert (existBooking Scenario.hasBooking
          = Some {| exist := true; response := [Sample.booked] |}) as He
    by reflexivity.
  assert (0 <= maxRetry (appSettings Sample.windowed)) as Hk by (simpl; lia).
  assert (forall n, statusCode (network n) <> 200) as Hnet
    by (intros n; simpl; discriminate).
  split; [exact Hb | ]. split; [exact He | ]. split; [exact Hk | ].
  split; [exact Hnet | ].
  destruct (bookSlot_cancel_failure_exits Sample.windowed network
              Scenario.stringify (Sample.slot 1 10) Sample.office
              Scenario.hasBooking _ Sample.booked [] Hb He eq_refl eq_refl
              Hk Hnet) as (st' & E & Es).
  exists st'. split; [exact E | ].
  rewrite Es, length_app, attempts_length. reflexivity.
Defined.

Lemma holdSlot_rejected_resumes_witness :
  let st1 :=
    issued "/api/HoldSlot" POST
      (HoldSlotPayload "01/31/2000" "Jane" "Doe" "6789" 110) 0
      More.pausedForHold in
  isHolded More.pausedForHold = false
  /\ requestApi Sample.windowed More.refusingNetwork "/api/HoldSlot" POST
       (HoldSlotPayload "01/31/2000" "Jane" "Doe" "6789" 110) 0
       More.pausedForHold
     = Returned (More.refusingNetwork 0) st1
  /\ bodyJson (More.refusingNetwork 0) = JsonHoldSlot More.refusedHold
  /\ SlotHeldSuccessfully More.refusedHold = false
  /\ exists st',
       holdSlot Sample.windowed More.refusingNetwork Scenario.stringify
         (Sample.slot 1 10) Sample.office More.pausedForHold
       = Returned tt st'
       /\ isHolded st' = false
       /\ isPaused st' = false.
Proof.
  intros st1.
  assert (isHolded More.pausedForHold = false) as Hh by reflexivity.
  assert (requestApi Sample.windowed More.refusingNetwork "/api/HoldSlot" POST
            (HoldSlotPayload "01/31/2000" "Jane" "Doe" "6789" 110) 0
            More.pausedForHold
          = Returned (More.refusingNetwork 0) st1) as R by reflexivity.
  assert (bodyJson (More.refusingNetwork 0) = JsonHoldSlot More.refusedHold)
    as J by reflexivity.
  assert (SlotHeldSuccessfully More.refusedHold = false) as Hs by reflexivity.
  split; [exact Hh | ]. split; [exact R | ]. split; [exact J | ].
  split; [exact Hs | ].
  destruct (holdSlot_rejected_resumes Sample.windowed More.refusingNetwork
              Scenario.stringify (Sample.slot 1 10) Sample.office
              More.pausedForHold _ _ _ Hh R J Hs) as (st' & E & H1 & H2 & _).
  exists st'. split; [exact E | split; [exact H1 | exact H2]].
Defined.

Lemma guards_return_at_once_witness :
  isHolded More.done = true
  /\ isBooked More.done = true
  /\ holdSlot Sample.windowed More.bookedNetwork Scenario.stringify
       (Sample.slot 1 10) Sample.office More.done = Returned tt More.done
  /\ bookSlot Sample.windowed More.bookedNetwork Scenario.stringify
       (Sample.slot 1 10) Sample.office More.done = Returned tt More.done.
Proof.
  assert (isHolded More.done = true) as Hh by reflexivity.
  assert (isBooked More.done = true) as Hb by reflexivity.
  split; [exact Hh | ]. split; [exact Hb | ].
  destruct (guards_return_at_once Sample.windowed More.bookedNetwork
              Scenario.stringify (Sample.slot 1 10) Sample.office More.done)
    as [G1 G2].
  split; [exact (G1 Hh) | exact (G2 Hb)].
Defined.

Lemma getResponseId_first_or_TypeError_witness :
  let st1 :=
    issued "/api/Eligibility" POST
      (EligibilityPayload "Jane" "Doe" "01/31/2000" "6789" "") 0
      (Sample.idle None) in
  requestApi Sample.windowed More.noEligibilityNetwork "/api/Eligibility" POST
    (EligibilityPayload "Jane" "Doe" "01/31/2000" "6789" "") 0 (Sample.idle None)
  = Returned (More.noEligibilityNetwork 0) st1
  /\ bodyJson (More.noEligibilityNetwork 0) = JsonEligibility []
  /\ getResponseId Sample.windowed More.noEligibilityNetwork (Sample.idle None)
     = Rejected TypeError st1.
Proof.
  intros st1.
  assert (requestApi Sample.windowed More.noEligibilityNetwork
            "/api/Eligibility" POST
            (EligibilityPayload "Jane" "Doe" "01/31/2000" "6789" "") 0
            (Sample.idle None)
          = Returned (More.noEligibilityNetwork 0) st1) as R by reflexivity.
  assert (bodyJson (More.noEligibilityNetwork 0) = JsonEligibility []) as J
    by reflexivity.
  split; [exact R | ]. split; [exact J | ].
  exact (getResponseId_first_or_TypeError Sample.windowed
           More.noEligibilityNetwork (Sample.idle None) _ _ [] R J).
Defined.

Lemma missing_typeId_finds_no_booking_witness :
  typeId (personalInfo (More.configWith 0 7 8 12 [] None)) = None
  /\ typeIdOr71 (More.configWith 0 7 8 12 [] None) = 71
  /\ existBookingOf (More.configWith 0 7 8 12 [] None)
       [Scenario.otherService; Sample.booked]
     = {| exist := false; response := [] |}.
Proof.
  assert (typeId (personalInfo (More.configWith 0 7 8 12 [] None)) = None) as H
    by reflexivity.
  split; [exact H | ].
  exact (missing_typeId_finds_no_booking (More.configWith 0 7 8 12 [] None)
           [Scenario.otherService; Sample.booked] H).
Defined.

Lemma empty_hour_window_keeps_nothing_witness :
  12 <= 12
  /\ availabilityFilter (More.configWith 0 7 12 12 [] (Some 71))
       [Sample.date 1 [7; 12; 14]] = []
  /\ booking (More.configWith 0 7 12 12 [] (Some 71))
       [Sample.date 1 [7; 12; 14]] = None.
Proof.
  assert (12 <= 12) as H by lia.
  split; [exact H | ].
  exact (empty_hour_window_keeps_nothing (More.configWith 0 7 12 12 [] (Some 71))
           [Sample.date 1 [7; 12; 14]] H).
Defined.

Lemma full_day_window_keeps_every_slot_witness :
  0 <= 0 /\ 24 <= 24
  /\ filteredTimeSlots (More.configWith 0 7 0 24 [] (Some 71))
       (Sample.date 1 [0; 7; 23])
     = AvailableTimeSlots (Sample.date 1 [0; 7; 23]).
Proof.
  assert (0 <= 0) as H0 by lia. assert (24 <= 24) as H24 by lia.
  split; [exact H0 | ]. split; [exact H24 | ].
  exact (full_day_window_keeps_every_slot (More.configWith 0 7 0 24 [] (Some 71))
           (Sample.date 1 [0; 7; 23]) H0 H24).
Defined.

Lemma adjacent_day_offsets_keep_nothing_witness :
  sameDay (location (More.configWith 0 1 8 12 [] (Some 71))) = false
  /\ Z.abs (1 - 0) <= 1
  /\ availabilityFilter (More.configWith 0 1 8 12 [] (Some 71))
       [Sample.date 0 [9]; Sample.date 1 [9]] = [].
Proof.
  assert (sameDay (location (More.configWith 0 1 8 12 [] (Some 71))) = false)
    as S by reflexivity.
  assert (Z.abs (1 - 0) <= 1) as W by (simpl; lia).
  split; [exact S | ]. split; [exact W | ].
  exact (adjacent_day_offsets_keep_nothing
           (More.configWith 0 1 8 12 [] (Some 71))
           [Sample.date 0 [9]; Sample.date 1 [9]] S W).
Defined.

Lemma preferred_days_out_of_range_keep_nothing_witness :
  sameDay (location (More.configWith 0 7 8 12 [7] (Some 71))) = false
  /\ preferredDays (location (More.configWith 0 7 8 12 [7] (Some 71))) <> []
  /\ (forall p, In p [7] -> p < 0 \/ 6 < p)
  /\ availabilityFilter (More.configWith 0 7 8 12 [7] (Some 71))
       [Sample.date 3 [9]] = [].
Proof.
  assert (sameDay (location (More.configWith 0 7 8 12 [7] (Some 71))) = false)
    as S by reflexivity.
  assert (preferredDays (location (More.configWith 0 7 8 12 [7] (Some 71))) <> [])
    as N by (simpl; discriminate).
  assert (forall p, In p [7] -> p < 0 \/ 6 < p) as O
    by (intros p [<- | []]; right; lia).
  split; [exact S | ]. split; [exact N | ]. split; [exact O | ].
  exact (preferred_days_out_of_range_keep_nothing
           (More.configWith 0 7 8 12 [7] (Some 71)) [Sample.date 3 [9]] S N O).
Defined.
